(** * SQLConnector: a shallow embedding of [python_sql_connector.py]

    The module wraps a psycopg2 connection: [open_connection],
    [close_connection] and [execute_query].  The database driver and pandas
    are external collaborators; the driver is an interface ([Driver]) over an
    abstract driver state, every method call of which may return or raise, and each
    call the connector issues is recorded, with its outcome, in an event
    trace.  The connector object is a record of optional attributes
    ([None] = the attribute does not exist, as tested by [hasattr]). *)

From Stdlib Require Import String List ZArith Bool Lia DecimalString.
Import ListNotations.
Open Scope string_scope.
Open Scope list_scope.

(** ** Python data *)

(** Cell values of a result row. *)
Inductive value : Type :=
| VNone
| VInt (z : Z)
| VStr (s : string).

(** A [str] argument whose default is [None]. *)
Definition pystr := option string.

(** A row as the driver hands it out (a tuple). *)
Definition tuple := list value.

(** Rows as [execute_query] holds them: [fetchone] rows stay tuples,
    [fetchall] rows go through [list(row)]. *)
Inductive row_obj : Type :=
| PyTuple (items : list value)
| PyList (items : list value).

Definition items_of (r : row_obj) : list value :=
  match r with PyTuple l => l | PyList l => l end.

(** An entry of [cursor.description]; item 0 is the column name. *)
Record column : Type := { col_name : string; col_rest : list value }.

(** A dict with string keys, in insertion order. *)
Definition dict := list (string * value).

Fixpoint dict_setitem (k : string) (v : value) (d : dict) : dict :=
  match d with
  | [] => [(k, v)]
  | (k', v') :: d' =>
      if String.eqb k' k then (k', v) :: d' else (k', v') :: dict_setitem k v d'
  end.

Fixpoint dict_get (k : string) (d : dict) : option value :=
  match d with
  | [] => None
  | (k', v') :: d' => if String.eqb k' k then Some v' else dict_get k d'
  end.

(** A frame built by [pd.DataFrame(data, columns=columns)], kept as the
    two arguments it was built from. *)
Record DataFrame : Type := { df_data : list row_obj; df_columns : list string }.

(** Driver handles (object identities). *)
Inductive conn : Type := Conn (id : nat).
Inductive cursor : Type := Cursor (id : nat).

(** ** Exceptions *)

Inductive exn : Type :=
| AssertionError (msg : option string)
| AttributeError (msg : string)
| TypeError (msg : string)
| ValueError (msg : string)
| DriverError (cls msg : string)      (* psycopg2.Error and subclasses *)
| BaseExn (cls msg : string).         (* BaseException outside Exception *)

(** What [except Exception] catches. *)
Definition is_Exception (e : exn) : bool :=
  match e with BaseExn _ _ => false | _ => true end.

(** [str(e)], as printed by [print(e)]. *)
Definition str (e : exn) : string :=
  match e with
  | AssertionError None => ""
  | AssertionError (Some m) => m
  | AttributeError m => m
  | TypeError m => m
  | ValueError m => m
  | DriverError _ m => m
  | BaseExn _ m => m
  end.

Inductive result (A : Type) : Type :=
| Return (a : A)
| Raise (e : exn).
Arguments Return {A} a.
Arguments Raise {A} e.

(** [str(n)] for a count. *)
Definition str_nat (n : nat) : string := NilZero.string_of_uint (Nat.to_uint n).

(** [pd.DataFrame(data, columns=columns)] on a list of rows.  pandas lays
    the rows out in a table as wide as the longest row (shorter rows are
    padded) and refuses column names that are not as many as that width;
    an empty list of rows takes any column names. *)
Definition pd_DataFrame (data : list row_obj) (columns : list string)
    : result DataFrame :=
  match data with
  | [] => Return {| df_data := []; df_columns := columns |}
  | _ :: _ =>
      let width := list_max (map (fun row => length (items_of row)) data) in
      if Nat.eqb (length columns) width then
        Return {| df_data := data; df_columns := columns |}
      else
        Raise (ValueError (str_nat (length columns) ++ " columns passed, passed data had "
                           ++ str_nat width ++ " columns")%string)
  end.

(** ** The trace of external calls *)

Inductive event : Type :=
| EvConnect (dbname user password host port : pystr) (r : result conn)
| EvConnClose (c : conn) (r : result unit)
| EvEnter (c : conn) (r : result conn)
| EvExit (c : conn) (exc : option exn) (r : result bool)
| EvCursor (c : conn) (r : result cursor)
| EvExecute (cur : cursor) (query : string) (r : result unit)
| EvCommit (c : conn) (r : result unit)
| EvRollback (c : conn) (r : result unit)
| EvFetchone (cur : cursor) (r : result (option tuple))
| EvFetchall (cur : cursor) (r : result (list tuple))
| EvDescription (cur : cursor) (v : option (list column))
| EvCursorClose (cur : cursor) (r : result unit)
| EvGcCollect
| EvPrint (s : string).

(** ** The driver interface *)

Class Driver (D : Type) : Type := {
  psycopg2_connect : pystr -> pystr -> pystr -> pystr -> pystr -> D -> D * result conn;
  conn_close : conn -> D -> D * result unit;
  conn_enter : conn -> D -> D * result conn;
  conn_exit : conn -> option exn -> D -> D * result bool;
  conn_cursor : conn -> D -> D * result cursor;
  conn_commit : conn -> D -> D * result unit;
  conn_rollback : conn -> D -> D * result unit;
  cursor_execute : cursor -> string -> D -> D * result unit;
  cursor_fetchone : cursor -> D -> D * result (option tuple);
  cursor_fetchall : cursor -> D -> D * result (list tuple);
  cursor_description : cursor -> D -> option (list column);
  cursor_close : cursor -> D -> D * result unit
}.

(** A scripted driver: connect, execute and commit fail when told to;
    every other call returns.  Handles are numbered from [next_id]. *)
Record fake_db : Type := {
  next_id : nat;
  connect_error : option exn;
  execute_error : option exn;
  commit_error : option exn;
  pending : list tuple;
  descr : option (list column)
}.

Definition fake_fresh (m : fake_db) : fake_db :=
  {| next_id := S (next_id m); connect_error := connect_error m;
     execute_error := execute_error m; commit_error := commit_error m;
     pending := pending m; descr := descr m |}.

Definition fake_with_pending (l : list tuple) (m : fake_db) : fake_db :=
  {| next_id := next_id m; connect_error := connect_error m;
     execute_error := execute_error m; commit_error := commit_error m;
     pending := l; descr := descr m |}.

Definition fake_may_fail (err : option exn) (m : fake_db) : fake_db * result unit :=
  match err with
  | Some e => (m, Raise e)
  | None => (m, Return tt)
  end.

#[export] Instance fake_driver : Driver fake_db := {|
  psycopg2_connect := fun _ _ _ _ _ m =>
    match connect_error m with
    | Some e => (m, Raise e)
    | None => (fake_fresh m, Return (Conn (next_id m)))
    end;
  conn_close := fun _ m => (m, Return tt);
  conn_enter := fun c m => (m, Return c);
  conn_exit := fun _ _ m => (m, Return false);
  conn_cursor := fun _ m => (fake_fresh m, Return (Cursor (next_id m)));
  conn_commit := fun _ m => fake_may_fail (commit_error m) m;
  conn_rollback := fun _ m => (m, Return tt);
  cursor_execute := fun _ _ m => fake_may_fail (execute_error m) m;
  cursor_fetchone := fun _ m =>
    match pending m with
    | [] => (m, Return None)
    | row :: rest => (fake_with_pending rest m, Return (Some row))
    end;
  cursor_fetchall := fun _ m => (fake_with_pending [] m, Return (pending m));
  cursor_description := fun _ m => descr m;
  cursor_close := fun _ m => (m, Return tt)
|}.

(** A driver on which every call returns, with no pending rows. *)
Definition fake_ok : fake_db :=
  {| next_id := 0; connect_error := None; execute_error := None;
     commit_error := None; pending := []; descr := None |}.

(** ** The connector object *)

Record SQLConnector : Type := {
  connection : option conn;
  database : option pystr;
  user : option pystr;
  password : option pystr;
  host : option pystr;
  port : option pystr
}.

(** [SQLConnector()]: [__init__] sets no attribute. *)
Definition __init__ : SQLConnector :=
  {| connection := None; database := None; user := None;
     password := None; host := None; port := None |}.

Definition hasattr_connection (s : SQLConnector) : bool :=
  match connection s with Some _ => true | None => false end.

Definition with_connection (v : option conn) (s : SQLConnector) : SQLConnector :=
  {| connection := v; database := database s; user := user s;
     password := password s; host := host s; port := port s |}.

Definition with_database (v : pystr) (s : SQLConnector) : SQLConnector :=
  {| connection := connection s; database := Some v; user := user s;
     password := password s; host := host s; port := port s |}.

Definition with_user (v : pystr) (s : SQLConnector) : SQLConnector :=
  {| connection := connection s; database := database s; user := Some v;
     password := password s; host := host s; port := port s |}.

Definition with_password (v : pystr) (s : SQLConnector) : SQLConnector :=
  {| connection := connection s; database := database s; user := user s;
     password := Some v; host := host s; port := port s |}.

Definition with_host (v : pystr) (s : SQLConnector) : SQLConnector :=
  {| connection := connection s; database := database s; user := user s;
     password := password s; host := Some v; port := port s |}.

Definition with_port (v : pystr) (s : SQLConnector) : SQLConnector :=
  {| connection := connection s; database := database s; user := user s;
     password := password s; host := host s; port := Some v |}.

(** What a call of [execute_query] hands back. *)
Inductive results : Type :=
| Rows (l : list row_obj)
| Frame (df : DataFrame)
| Records (l : list dict).

Inductive retval : Type :=
| RetNone
| RetCursor (cur : cursor)
| RetResults (r : results)
| RetResultsCursor (r : results) (cur : cursor).

(** [{column: value for value, column in zip(row, columns)}] *)
Definition record_of (columns : list string) (row : row_obj) : dict :=
  fold_left (fun d vc => dict_setitem (snd vc) (fst vc) d)
            (combine (items_of row) columns) [].

(** [fetch in ["one", "all"]] *)
Definition fetch_in_one_all (fetch : string) : bool :=
  String.eqb fetch "one" || String.eqb fetch "all".

Section Connector.

Context {D : Type} `{Driver D}.

(** ** The effect monad: connector object, driver state, trace, exceptions *)

Record outcome (A : Type) : Type := {
  o_self : SQLConnector;
  o_drv : D;
  o_events : list event;
  o_result : result A
}.
Arguments o_self {A} o.
Arguments o_drv {A} o.
Arguments o_events {A} o.
Arguments o_result {A} o.

Definition M (A : Type) : Type := SQLConnector -> D -> outcome A.

Definition ret {A} (a : A) : M A := fun s d =>
  {| o_self := s; o_drv := d; o_events := []; o_result := Return a |}.

Definition raise {A} (e : exn) : M A := fun s d =>
  {| o_self := s; o_drv := d; o_events := []; o_result := Raise e |}.

Definition bind {A B} (m : M A) (f : A -> M B) : M B := fun s d =>
  match m s d with
  | Build_outcome _ s1 d1 l1 (Raise e) =>
      {| o_self := s1; o_drv := d1; o_events := l1; o_result := Raise e |}
  | Build_outcome _ s1 d1 l1 (Return a) =>
      match f a s1 d1 with
      | Build_outcome _ s2 d2 l2 r =>
          {| o_self := s2; o_drv := d2; o_events := l1 ++ l2; o_result := r |}
      end
  end.

Notation "x <- m ;; k" := (bind m (fun x => k))
  (at level 61, m at next level, right associativity).
Notation "m ;; k" := (bind m (fun _ => k))
  (at level 61, right associativity).

(** A call into the driver, recorded with its outcome. *)
Definition call {A} (f : D -> D * result A) (ev : result A -> event) : M A :=
  fun s d =>
    match f d with
    | (d', r) => {| o_self := s; o_drv := d'; o_events := [ev r]; o_result := r |}
    end.

(** An attribute read on a driver object, recorded with the value read. *)
Definition read {A} (f : D -> A) (ev : A -> event) : M A := fun s d =>
  {| o_self := s; o_drv := d; o_events := [ev (f d)]; o_result := Return (f d) |}.

Definition emit (ev : event) : M unit := fun s d =>
  {| o_self := s; o_drv := d; o_events := [ev]; o_result := Return tt |}.

Definition print (s : string) : M unit := emit (EvPrint s).
Definition gc_collect : M unit := emit EvGcCollect.

Definition get_self : M SQLConnector := fun s d =>
  {| o_self := s; o_drv := d; o_events := []; o_result := Return s |}.

Definition modify_self (f : SQLConnector -> SQLConnector) : M unit := fun s d =>
  {| o_self := f s; o_drv := d; o_events := []; o_result := Return tt |}.

(** [assert b, msg] *)
Definition py_assert (b : bool) (msg : option string) : M unit :=
  if b then ret tt else raise (AssertionError msg).

(** [self.<name>]: AttributeError when the attribute does not exist. *)
Definition getattr {A} (proj : SQLConnector -> option A) (name : string) : M A :=
  s <- get_self ;;
  match proj s with
  | Some v => ret v
  | None =>
      raise (AttributeError
               ("'SQLConnector' object has no attribute '" ++ name ++ "'")%string)
  end.

Definition self_connection : M conn := getattr connection "connection".
Definition self_database : M pystr := getattr database "database".
Definition self_user : M pystr := getattr user "user".
Definition self_password : M pystr := getattr password "password".
Definition self_host : M pystr := getattr host "host".
Definition self_port : M pystr := getattr port "port".

(** [del self.connection] *)
Definition del_connection : M unit :=
  s <- get_self ;;
  match connection s with
  | Some _ => modify_self (with_connection None)
  | None => raise (AttributeError "connection")
  end.

(** [try: body / except Exception as e: handler e] *)
Definition try_except_Exception {A} (body : M A) (handler : exn -> M A) : M A :=
  fun s d =>
    match body s d with
    | Build_outcome _ s1 d1 l1 (Return a) =>
        {| o_self := s1; o_drv := d1; o_events := l1; o_result := Return a |}
    | Build_outcome _ s1 d1 l1 (Raise e) =>
        if is_Exception e then
          match handler e s1 d1 with
          | Build_outcome _ s2 d2 l2 r =>
              {| o_self := s2; o_drv := d2; o_events := l1 ++ l2; o_result := r |}
          end
        else {| o_self := s1; o_drv := d1; o_events := l1; o_result := Raise e |}
    end.

(** [with mgr as x: body x], every normal path of [body] ending in a
    [return]; [rest] is the code after the block, reached only when
    [__exit__] swallows an exception. *)
Definition with_as {A} (mgr : conn) (body : conn -> M A) (rest : M A) : M A :=
  x <- call (conn_enter mgr) (EvEnter mgr) ;;
  fun s d =>
    match body x s d with
    | Build_outcome _ s1 d1 l1 (Return a) =>
        match conn_exit mgr None d1 with
        | (d2, Return b) =>
            {| o_self := s1; o_drv := d2;
               o_events := l1 ++ [EvExit mgr None (Return b)];
               o_result := Return a |}
        | (d2, Raise e') =>
            {| o_self := s1; o_drv := d2;
               o_events := l1 ++ [EvExit mgr None (Raise e')];
               o_result := Raise e' |}
        end
    | Build_outcome _ s1 d1 l1 (Raise e) =>
        match conn_exit mgr (Some e) d1 with
        | (d2, Raise e') =>
            {| o_self := s1; o_drv := d2;
               o_events := l1 ++ [EvExit mgr (Some e) (Raise e')];
               o_result := Raise e' |}
        | (d2, Return false) =>
            {| o_self := s1; o_drv := d2;
               o_events := l1 ++ [EvExit mgr (Some e) (Return false)];
               o_result := Raise e |}
        | (d2, Return true) =>
            match rest s1 d2 with
            | Build_outcome _ s3 d3 l3 r =>
                {| o_self := s3; o_drv := d3;
                   o_events := l1 ++ EvExit mgr (Some e) (Return true) :: l3;
                   o_result := r |}
            end
        end
    end.

(** ** The methods of [SQLConnector] *)

(** The decorator: [assert hasattr(self, "connection"), "..."], then the
    wrapped method. *)
Definition _check_connection {A} (func : M A) : M A :=
  s <- get_self ;;
  py_assert (hasattr_connection s) (Some "there is no open connection.") ;;
  func.

Definition close_connection : M unit :=
  _check_connection (
    c <- self_connection ;;
    call (conn_close c) (EvConnClose c) ;;
    del_connection ;;
    gc_collect ;;
    print "connection closed").

Definition open_connection (database user password host port : pystr)
    (connection_type : string) : M unit :=
  s <- get_self ;;
  (if hasattr_connection s then close_connection else ret tt) ;;
  modify_self (with_database database) ;;
  modify_self (with_user user) ;;
  modify_self (with_password password) ;;
  modify_self (with_host host) ;;
  modify_self (with_port port) ;;
  dbname <- self_database ;;
  u <- self_user ;;
  pw <- self_password ;;
  h <- self_host ;;
  p <- self_port ;;
  c <- call (psycopg2_connect dbname u pw h p) (EvConnect dbname u pw h p) ;;
  modify_self (with_connection (Some c)).

(** [cursor.fetchone()] / [cursor.fetchall()], lines 120-125. *)
Definition fetch_results (cur : cursor) (fetch : string) : M (list row_obj) :=
  if String.eqb fetch "one" then
    r <- call (cursor_fetchone cur) (EvFetchone cur) ;;
    ret (match r with None => [] | Some row => [PyTuple row] end)
  else
    r <- call (cursor_fetchall cur) (EvFetchall cur) ;;
    ret (map PyList r).

(** [[row[0] for row in cursor.description]]; a [None] description is not
    iterable. *)
Definition description_columns (cur : cursor) : M (list string) :=
  descr <- read (cursor_description cur) (EvDescription cur) ;;
  match descr with
  | Some cols => ret (map col_name cols)
  | None => raise (TypeError "'NoneType' object is not iterable")
  end.

(** Lines 129-135: the frame, when asked for, is built first and pandas
    may refuse it; the records are built next.  The assertion of line 98
    keeps the two flags from being set together, so the comprehension of
    line 133 only ever walks rows. *)
Definition reshape (return_dataframe return_records : bool)
    (rows : list row_obj) (columns : list string) : result results :=
  match (if return_dataframe then
           match pd_DataFrame rows columns with
           | Return df => Return (Frame df)
           | Raise e => Raise e
           end
         else Return (Rows rows)) with
  | Raise e => Raise e
  | Return res =>
      Return (if return_records then
                match res with
                | Rows rs => Records (map (record_of columns) rs)
                | other => other
                end
              else res)
  end.

(** A computation that touches nothing: its value, or its exception. *)
Definition lift_result {A} (r : result A) : M A :=
  match r with
  | Return a => ret a
  | Raise e => raise e
  end.

Definition execute_query (query : string) (commit : bool) (fetch : string)
    (return_dataframe return_records return_cursor : bool) : M retval :=
  _check_connection (
    py_assert (fetch_in_one_all fetch) None ;;
    py_assert (negb return_dataframe || negb return_records)
      (Some "return_dataframe and return_records cannot both be set to true") ;;
    mgr <- self_connection ;;
    with_as mgr (fun connection =>
      cur <- call (conn_cursor connection) (EvCursor connection) ;;
      call (cursor_execute cur query) (EvExecute cur query) ;;
      if commit then
        try_except_Exception
          (c <- self_connection ;; call (conn_commit c) (EvCommit c))
          (fun e =>
             c <- self_connection ;;
             call (conn_rollback c) (EvRollback c) ;;
             print (str e)) ;;
        if return_cursor then ret (RetCursor cur)
        else
          call (cursor_close cur) (EvCursorClose cur) ;;
          ret RetNone
      else
        rows <- fetch_results cur fetch ;;
        columns <- description_columns cur ;;
        res <- lift_result (reshape return_dataframe return_records rows columns) ;;
        if return_cursor then ret (RetResultsCursor res cur)
        else
          call (cursor_close cur) (EvCursorClose cur) ;;
          ret (RetResults res))
      (ret RetNone)).

End Connector.

Arguments o_self {D A} o.
Arguments o_drv {D A} o.
Arguments o_events {D A} o.
Arguments o_result {D A} o.

(** ** Live connection handles, read off the trace *)

Definition conn_eqb (a b : conn) : bool :=
  match a, b with Conn i, Conn j => Nat.eqb i j end.

Fixpoint remove_one (c : conn) (l : list conn) : list conn :=
  match l with
  | [] => []
  | x :: l' => if conn_eqb x c then l' else x :: remove_one c l'
  end.

(** A handle is live from the connect that returned it to the close that
    returned on it. *)
Definition live_step (l : list conn) (ev : event) : list conn :=
  match ev with
  | EvConnect _ _ _ _ _ (Return c) => c :: l
  | EvConnClose c (Return _) => remove_one c l
  | _ => l
  end.

Definition live_after (l : list conn) (evs : list event) : list conn :=
  fold_left live_step evs l.

Definition live (evs : list event) : list conn := live_after [] evs.

(** The events that change the live handles. *)
Definition touches_handles (ev : event) : bool :=
  match ev with
  | EvConnect _ _ _ _ _ (Return _) => true
  | EvConnClose _ (Return _) => true
  | _ => false
  end.

(** The handle the connector holds. *)
Definition held (s : SQLConnector) : list conn :=
  match connection s with Some c => [c] | None => [] end.

(** At most one live handle after every event of [evs], starting from the
    live handles [l]. *)
Fixpoint bounded_throughout (l : list conn) (evs : list event) : Prop :=
  length l <= 1 /\
  match evs with
  | [] => True
  | ev :: evs' => bounded_throughout (live_step l ev) evs'
  end.

(** ** Sessions: a caller driving one connector *)

Inductive api_call : Type :=
| CallOpen (database user password host port : pystr) (connection_type : string)
| CallClose
| CallExecute (query : string) (commit : bool) (fetch : string)
    (return_dataframe return_records return_cursor : bool).

Section Sessions.

Context {D : Type} `{Driver D}.

(** One call; the caller goes on whether it returned or raised. *)
Definition run_call (k : api_call) (s : SQLConnector) (d : D)
    : SQLConnector * D * list event :=
  match k with
  | CallOpen db u pw h p ct =>
      let o := open_connection db u pw h p ct s d in
      (o_self o, o_drv o, o_events o)
  | CallClose =>
      let o := close_connection s d in (o_self o, o_drv o, o_events o)
  | CallExecute q commit fetch rdf rrec rcur =>
      let o := execute_query q commit fetch rdf rrec rcur s d in
      (o_self o, o_drv o, o_events o)
  end.

Fixpoint run_calls (ks : list api_call) (s : SQLConnector) (d : D)
    : SQLConnector * D * list event :=
  match ks with
  | [] => (s, d, [])
  | k :: ks' =>
      match run_call k s d with
      | (s1, d1, l1) =>
          match run_calls ks' s1 d1 with
          | (s2, d2, l2) => (s2, d2, l1 ++ l2)
          end
      end
  end.

End Sessions.

(** The reading of "a call that does not hand its cursor back closes it":
    every cursor the call created has a [close] in the trace. *)
Definition closes_every_cursor (evs : list event) : Prop :=
  forall c cur, In (EvCursor c (Return cur)) evs ->
    exists r, In (EvCursorClose cur r) evs.

(** The value a call hands back on each branch. *)
Definition hands_back (commit return_cursor : bool) (res : results)
    (cur : cursor) : retval :=
  match commit, return_cursor with
  | true, true => RetCursor cur
  | true, false => RetNone
  | false, true => RetResultsCursor res cur
  | false, false => RetResults res
  end.

(** The rows of a read, as the trace shows them fetched from [cur]. *)
Definition fetched (fetch : string) (cur : cursor) (rows : list row_obj)
    (evs : list event) : Prop :=
  if String.eqb fetch "one" then
    exists r, In (EvFetchone cur (Return r)) evs /\
              rows = match r with None => [] | Some row => [PyTuple row] end
  else
    exists rs, In (EvFetchall cur (Return rs)) evs /\ rows = map PyList rs.

(** ** Concrete scenarios on the scripted driver *)

(** A connector holding the connection [Conn 0]. *)
Definition connected : SQLConnector := with_connection (Some (Conn 0)) __init__.

Definition fake_execute_fails : fake_db :=
  {| next_id := 1; connect_error := None;
     execute_error := Some (DriverError "SyntaxError" "syntax error at or near SELEC");
     commit_error := None; pending := []; descr := None |}.

Definition fake_commit_fails : fake_db :=
  {| next_id := 1; connect_error := None; execute_error := None;
     commit_error := Some (DriverError "OperationalError" "server closed the connection");
     pending := []; descr := None |}.

Definition fake_connect_fails : fake_db :=
  {| next_id := 1;
     connect_error := Some (DriverError "OperationalError" "could not connect to server");
     execute_error := None; commit_error := None; pending := []; descr := None |}.

(** A result set of two rows over the columns [id], [name]. *)
Definition fake_table : fake_db :=
  {| next_id := 1; connect_error := None; execute_error := None;
     commit_error := None;
     pending := [[VInt 1; VStr "a"]; [VInt 2; VStr "b"]];
     descr := Some [ {| col_name := "id"; col_rest := [] |};
                     {| col_name := "name"; col_rest := [] |} ] |}.

(** A row of two values under a description of one column. *)
Definition fake_ragged : fake_db :=
  {| next_id := 1; connect_error := None; execute_error := None;
     commit_error := None;
     pending := [[VInt 1; VStr "a"]];
     descr := Some [ {| col_name := "id"; col_rest := [] |} ] |}.

(** ** A second scripted driver, for the failures the first one cannot show

    Close, commit, rollback and the fetches fail when told to; connect,
    cursor, execute, cursor close and the block's enter and exit return. *)
Record flaky_db : Type := {
  close_fault : option exn;
  commit_fault : option exn;
  rollback_fault : option exn;
  fetch_fault : option exn;
  rows_left : list tuple;
  columns_known : option (list column)
}.

Definition flaky_with_rows (l : list tuple) (m : flaky_db) : flaky_db :=
  {| close_fault := close_fault m; commit_fault := commit_fault m;
     rollback_fault := rollback_fault m; fetch_fault := fetch_fault m;
     rows_left := l; columns_known := columns_known m |}.

Definition flaky_may_fail (err : option exn) (m : flaky_db)
    : flaky_db * result unit :=
  match err with
  | Some e => (m, Raise e)
  | None => (m, Return tt)
  end.

#[export] Instance flaky_driver : Driver flaky_db := {|
  psycopg2_connect := fun _ _ _ _ _ m => (m, Return (Conn 1));
  conn_close := fun _ m => flaky_may_fail (close_fault m) m;
  conn_enter := fun c m => (m, Return c);
  conn_exit := fun _ _ m => (m, Return false);
  conn_cursor := fun _ m => (m, Return (Cursor 7));
  conn_commit := fun _ m => flaky_may_fail (commit_fault m) m;
  conn_rollback := fun _ m => flaky_may_fail (rollback_fault m) m;
  cursor_execute := fun _ _ m => (m, Return tt);
  cursor_fetchone := fun _ m =>
    match fetch_fault m, rows_left m with
    | Some e, _ => (m, Raise e)
    | None, [] => (m, Return None)
    | None, row :: rest => (flaky_with_rows rest m, Return (Some row))
    end;
  cursor_fetchall := fun _ m =>
    match fetch_fault m with
    | Some e => (m, Raise e)
    | None => (flaky_with_rows [] m, Return (rows_left m))
    end;
  cursor_description := fun _ m => columns_known m;
  cursor_close := fun _ m => (m, Return tt)
|}.

Definition flaky_close_fails : flaky_db :=
  {| close_fault := Some (DriverError "InterfaceError" "connection already closed");
     commit_fault := None; rollback_fault := None; fetch_fault := None;
     rows_left := []; columns_known := None |}.

Definition flaky_rollback_fails : flaky_db :=
  {| close_fault := None;
     commit_fault := Some (DriverError "OperationalError" "commit failed");
     rollback_fault := Some (DriverError "InterfaceError" "rollback failed");
     fetch_fault := None; rows_left := []; columns_known := None |}.

(** The commit is interrupted from the keyboard. *)
Definition flaky_interrupted : flaky_db :=
  {| close_fault := None;
     commit_fault := Some (BaseExn "KeyboardInterrupt" "");
     rollback_fault := None; fetch_fault := None;
     rows_left := []; columns_known := None |}.

(** ** A third scripted driver: a connection that went away

    Every execute fails, and so does the exit of a [with] block that is
    handed an exception (it tries to roll back on the dead connection). *)
Record lost_db : Type := {
  lost_execute_error : exn;
  lost_exit_error : exn
}.

#[export] Instance lost_driver : Driver lost_db := {|
  psycopg2_connect := fun _ _ _ _ _ m => (m, Return (Conn 1));
  conn_close := fun _ m => (m, Return tt);
  conn_enter := fun c m => (m, Return c);
  conn_exit := fun _ exc m =>
    match exc with
    | Some _ => (m, Raise (lost_exit_error m))
    | None => (m, Return false)
    end;
  conn_cursor := fun _ m => (m, Return (Cursor 3));
  conn_commit := fun _ m => (m, Return tt);
  conn_rollback := fun _ m => (m, Return tt);
  cursor_execute := fun _ _ m => (m, Raise (lost_execute_error m));
  cursor_fetchone := fun _ m => (m, Return None);
  cursor_fetchall := fun _ m => (m, Return []);
  cursor_description := fun _ m => None;
  cursor_close := fun _ m => (m, Return tt)
|}.

Definition lost_connection : lost_db :=
  {| lost_execute_error :=
       DriverError "OperationalError" "server closed the connection unexpectedly";
     lost_exit_error := DriverError "InterfaceError" "connection already closed" |}.

(** ** Kinds of events *)

(** Opening and closing connections, and what [close_connection] does
    around it. *)
Definition is_lifecycle (ev : event) : bool :=
  match ev with
  | EvConnect _ _ _ _ _ _ | EvConnClose _ _ | EvGcCollect => true
  | _ => false
  end.

(** The two ends of the [with] block. *)
Definition is_bracket (ev : event) : bool :=
  match ev with
  | EvEnter _ _ | EvExit _ _ _ => true
  | _ => false
  end.

Definition is_cursor_creation (ev : event) : bool :=
  match ev with EvCursor _ _ => true | _ => false end.

Definition is_execute (ev : event) : bool :=
  match ev with EvExecute _ _ _ => true | _ => false end.

(** What only the read branch does. *)
Definition is_read_event (ev : event) : bool :=
  match ev with
  | EvFetchone _ _ | EvFetchall _ _ | EvDescription _ _ => true
  | _ => false
  end.

(** What only the commit branch does. *)
Definition is_commit_event (ev : event) : bool :=
  match ev with
  | EvCommit _ _ | EvRollback _ _ | EvPrint _ => true
  | _ => false
  end.

(** The exception a driver call inside the [with] block raised, if it
    raised. *)
Definition raised_in_block (ev : event) : option exn :=
  match ev with
  | EvCursor _ (Raise e) => Some e
  | EvExecute _ _ (Raise e) => Some e
  | EvCommit _ (Raise e) => Some e
  | EvRollback _ (Raise e) => Some e
  | EvFetchone _ (Raise e) => Some e
  | EvFetchall _ (Raise e) => Some e
  | EvCursorClose _ (Raise e) => Some e
  | _ => None
  end.

(** The same, the two ends of the block included. *)
Definition raised_by (ev : event) : option exn :=
  match ev with
  | EvEnter _ (Raise e) => Some e
  | EvExit _ _ (Raise e) => Some e
  | _ => raised_in_block ev
  end.

(** The request passes the two assertions of [execute_query]. *)
Definition valid_request (fetch : string) (return_dataframe return_records : bool)
    : bool :=
  fetch_in_one_all fetch && (negb return_dataframe || negb return_records).

(** The [TypeError] of iterating a [None] description. *)
Definition NoDescriptionError : exn :=
  TypeError "'NoneType' object is not iterable".

(** ** What the driver is expected to do (the collaborator contract) *)

Section Contract.

Context {D : Type} `{Driver D}.

(** [connection.rollback()] returns. *)
Definition rollback_returns : Prop :=
  forall c d, snd (conn_rollback c d) = Return tt.

(** [cursor.close()] returns. *)
Definition cursor_close_returns : Prop :=
  forall cur d, snd (cursor_close cur d) = Return tt.

(** Leaving the [with] block normally: [__exit__(None, None, None)]
    returns. *)
Definition exit_returns : Prop :=
  forall c d, exists b, snd (conn_exit c None d) = Return b.

(** Leaving the [with] block on an exception: [__exit__] returns a false
    value, so the exception goes on propagating (psycopg2 returns [None]). *)
Definition exit_propagates : Prop :=
  forall c e d, snd (conn_exit c (Some e) d) = Return false.

End Contract.

(** Unfolding the methods down to the driver calls. *)
Ltac unfold_methods :=
  unfold open_connection, execute_query, close_connection, _check_connection,
    with_as, try_except_Exception, fetch_results, description_columns,
    self_connection, self_database, self_user, self_password, self_host,
    self_port, getattr, del_connection, py_assert, lift_result, call, read, print,
    gc_collect, emit, modify_self, bind, ret, raise, get_self,
    hasattr_connection in *.

(** One driver call: split on its outcome. *)
Ltac driver_step :=
  match goal with
  | |- context [match ?f ?d with pair _ _ => _ end] =>
      let d' := fresh "d" in
      let r := fresh "r" in
      let E := fresh "E" in
      destruct (f d) as [d' [r|r]] eqn:E; cbn [fst snd] in *
  end.

(** A test on a value the driver produced. *)
Ltac bool_step :=
  match goal with
  | |- context [if is_Exception ?e then _ else _] =>
      let E := fresh "E" in destruct (is_Exception e) eqn:E
  | |- context [if ?b then _ else _] => is_var b; destruct b
  end.

(** One step of a run: the next attribute read, driver call or test. *)
Ltac run_step :=
  first
    [ match goal with
      | Hc : connection ?s = _ |- context [connection ?s] => rewrite Hc
      end
    | driver_step
    | bool_step
    | match goal with
      | |- context [match cursor_description ?c ?d with _ => _ end] =>
          let E := fresh "E" in destruct (cursor_description c d) eqn:E
      | |- context [if String.eqb ?a ?b then _ else _] =>
          let E := fresh "E" in destruct (String.eqb a b) eqn:E
      | |- context [match reshape ?a ?b ?c ?d with _ => _ end] =>
          let res := fresh "res" in
          let E := fresh "E" in
          destruct (reshape a b c d) as [res|res] eqn:E
      | |- context [match pd_DataFrame ?a ?b with _ => _ end] =>
          let df := fresh "df" in
          let E := fresh "E" in
          destruct (pd_DataFrame a b) as [df|df] eqn:E
      end ].

Ltac run := repeat (run_step; cbn).

(** A driver outcome that the contract rules out. *)
Ltac contract_absurd :=
  match goal with
  | Hk : rollback_returns, E : conn_rollback ?c ?d = (_, Raise _) |- _ =>
      specialize (Hk c d); rewrite E in Hk; discriminate Hk
  | Hk : cursor_close_returns, E : cursor_close ?c ?d = (_, Raise _) |- _ =>
      specialize (Hk c d); rewrite E in Hk; discriminate Hk
  | Hk : exit_returns, E : conn_exit ?c None ?d = (_, Raise _) |- _ =>
      let b := fresh "b" in
      let Hb := fresh "Hb" in
      destruct (Hk c d) as [b Hb]; rewrite E in Hb; discriminate Hb
  | Hk : exit_propagates, E : conn_exit ?c (Some ?e) ?d = (_, _) |- _ =>
      specialize (Hk c e d); rewrite E in Hk; discriminate Hk
  end.

(** Trace membership on an explicit trace. *)
Ltac split_membership :=
  repeat match goal with
         | H : _ \/ _ |- _ => destruct H
         | H : False |- _ => destruct H
         | u : unit |- _ => destruct u
         end.

(** A hypothesis [Hall] says that no event of an explicit trace raised; the
    trace holds one that did. *)
Ltac refute_quiet Hall :=
  let X := fresh "X" in
  first
    [ pose proof (Hall _ (or_introl eq_refl)) as X; discriminate X
    | pose proof (Hall _ (or_intror (or_introl eq_refl))) as X; discriminate X
    | pose proof (Hall _ (or_intror (or_intror (or_introl eq_refl)))) as X;
      discriminate X
    | pose proof (Hall _ (or_intror (or_intror (or_intror (or_introl eq_refl)))))
        as X; discriminate X ].

(** ** The error kinds of the interface, as the code raises them *)

(** Raised by the decorator [_check_connection]. *)
Definition PreconditionError : exn :=
  AssertionError (Some "there is no open connection.").

(** Raised by the two assertions that open [execute_query]. *)
Definition ValidationError_fetch : exn := AssertionError None.
Definition ValidationError_modes : exn :=
  AssertionError (Some "return_dataframe and return_records cannot both be set to true").

(** An outcome that touched nothing: same object, same driver state, empty
    trace. *)
Definition untouched {D A} (s : SQLConnector) (d : D) (r : result A) : outcome A :=
  {| o_self := s; o_drv := d; o_events := []; o_result := r |}.

Section Properties.

Context {D : Type} `{Driver D}.

(** *** The decorator *)

Lemma close_connection_without_connection :
  forall (self : SQLConnector) (d : D),
    connection self = None ->
    close_connection self d = untouched self d (Raise PreconditionError).
Proof.
  intros self d Hnone.
  unfold close_connection, _check_connection, bind, get_self,
    hasattr_connection, untouched.
  rewrite Hnone. reflexivity.
Qed.

Lemma execute_query_without_connection :
  forall (self : SQLConnector) (d : D) query commit fetch rdf rrec rcur,
    connection self = None ->
    execute_query query commit fetch rdf rrec rcur self d
      = untouched self d (Raise PreconditionError).
Proof.
  intros self d query commit fetch rdf rrec rcur Hnone.
  unfold execute_query, _check_connection, bind, get_self,
    hasattr_connection, untouched.
  rewrite Hnone. reflexivity.
Qed.

(** C4. With no connection held, [close_connection] and [execute_query]
    (whatever its arguments) raise the precondition error of the decorator,
    and nothing else happens: no driver call, no change of the object. *)
Theorem no_connection_fails_precondition :
  forall (self : SQLConnector) (d : D) query commit fetch rdf rrec rcur,
    connection self = None ->
    close_connection self d = untouched self d (Raise PreconditionError) /\
    execute_query query commit fetch rdf rrec rcur self d
      = untouched self d (Raise PreconditionError).
Proof.
  intros self d query commit fetch rdf rrec rcur Hnone. split.
  - now apply close_connection_without_connection.
  - now apply execute_query_without_connection.
Qed.

(** C3. A request whose fetch mode is neither "one" nor "all", or that asks
    for a dataframe and for records at once, fails on the assertions that
    open [execute_query], whatever the query: the connector and the driver
    are untouched and the trace is empty (no cursor, no SQL).  On a
    connector that holds a connection the error is the validation error;
    with none held the decorator fails first, just as silently. *)
Theorem invalid_request_fails_before_driver :
  forall (self : SQLConnector) (d : D) query commit fetch rdf rrec rcur,
    (fetch <> "one" /\ fetch <> "all") \/ (rdf = true /\ rrec = true) ->
    execute_query query commit fetch rdf rrec rcur self d
      = untouched self d
          (Raise (match connection self with
                  | None => PreconditionError
                  | Some _ =>
                      if fetch_in_one_all fetch then ValidationError_modes
                      else ValidationError_fetch
                  end)).
Proof.
  intros self d query commit fetch rdf rrec rcur Hbad.
  unfold execute_query, _check_connection, bind, get_self, hasattr_connection,
    untouched.
  destruct (connection self) as [c|]; [|reflexivity].
  cbn [py_assert ret raise].
  destruct (fetch_in_one_all fetch) eqn:Hf; [|reflexivity].
  destruct Hbad as [[H1 H2]|[-> ->]]; [|reflexivity].
  unfold fetch_in_one_all in Hf.
  apply orb_true_iff in Hf as [Hf|Hf]; apply String.eqb_eq in Hf; contradiction.
Qed.

(** C1, the amended claim.  In a call with [commit=True] whose
    [connection.commit()] raises an exception that [except Exception]
    catches, the rollback is issued on the connection right after the
    failed commit.  When that rollback and the calls after it (the cursor
    close, the block's exit) do not raise, the call returns, handing back
    the cursor when [return_cursor] is set and [None] otherwise (what a
    successful commit hands back, see [commit_success_result]), and
    between the rollback and the end the error is printed, nothing more. *)
Theorem commit_failure_is_recovered :
  forall (self : SQLConnector) (d : D) query fetch rdf rrec rcur c e,
    In (EvCommit c (Raise e))
       (o_events (execute_query query true fetch rdf rrec rcur self d)) ->
    is_Exception e = true ->
    exists c' cur r post,
      o_events (execute_query query true fetch rdf rrec rcur self d)
        = [EvEnter c (Return c'); EvCursor c' (Return cur);
           EvExecute cur query (Return tt);
           EvCommit c (Raise e); EvRollback c r] ++ post /\
      ((forall ev, In ev (EvRollback c r :: post) -> raised_by ev = None) ->
       o_result (execute_query query true fetch rdf rrec rcur self d)
         = Return (if rcur then RetCursor cur else RetNone) /\
       exists b,
         post = [EvPrint (str e)]
                ++ (if rcur then [] else [EvCursorClose cur (Return tt)])
                ++ [EvExit c None (Return b)]).
Proof.
  intros self d query fetch rdf rrec rcur c e.
  unfold_methods.
  destruct (connection self) as [c0|] eqn:Hc; cbn; [|intros []].
  destruct (fetch_in_one_all fetch); cbn; [|intros []].
  destruct (negb rdf || negb rrec); cbn; [|intros []].
  destruct rcur; run.
  all: intros Hin He; split_membership; try discriminate.
  all: match goal with
       | Heq : EvCommit _ _ = EvCommit _ _ |- _ => injection Heq as -> ->
       end; try congruence.
  all: eexists _, _, _, _; split; [reflexivity|].
  all: intros Hall.
  all: first [ refute_quiet Hall
             | split; [reflexivity | eexists; reflexivity] ].
Qed.

(** The same call when the commit returns: the same value is handed back. *)
Lemma commit_success_result :
  forall (self : SQLConnector) (d : D) query fetch rdf rrec rcur c,
    cursor_close_returns -> exit_returns ->
    In (EvCommit c (Return tt))
       (o_events (execute_query query true fetch rdf rrec rcur self d)) ->
    exists c' cur b,
      o_result (execute_query query true fetch rdf rrec rcur self d)
        = Return (if rcur then RetCursor cur else RetNone) /\
      o_events (execute_query query true fetch rdf rrec rcur self d)
        = [EvEnter c (Return c'); EvCursor c' (Return cur);
           EvExecute cur query (Return tt); EvCommit c (Return tt)]
          ++ (if rcur then [] else [EvCursorClose cur (Return tt)])
          ++ [EvExit c None (Return b)].
Proof.
  intros self d query fetch rdf rrec rcur c Hcc Hex.
  unfold_methods.
  destruct (connection self) as [c0|] eqn:Hc; cbn; [|intros []].
  destruct (fetch_in_one_all fetch); cbn; [|intros []].
  destruct (negb rdf || negb rrec); cbn; [|intros []].
  destruct rcur; run.
  all: intros Hin; split_membership; try discriminate; try contract_absurd.
  all: match goal with
       | Heq : EvCommit _ _ = EvCommit _ _ |- _ => injection Heq as ->
       end.
  all: eexists _, _, _; split; reflexivity.
Qed.

(** C8, the amended claim.  When [cursor.execute] raises, the trace of the
    call is enter, cursor, the one failed execute, and the block's exit
    given that exception: no second execute, and no rollback issued by the
    connector.  What the caller gets is decided by that [__exit__]: the
    exception of the execute, unchanged, when it returns a false value; its
    own exception when it raises; [None] when it returns a true value.  In
    any call, a rollback is issued only after a commit that raised. *)
Theorem execute_error_propagates :
  forall (self : SQLConnector) (d : D) query commit fetch rdf rrec rcur,
    (forall cur e,
       In (EvExecute cur query (Raise e))
          (o_events (execute_query query commit fetch rdf rrec rcur self d)) ->
       exists c c' r,
         connection self = Some c /\
         o_events (execute_query query commit fetch rdf rrec rcur self d)
           = [EvEnter c (Return c'); EvCursor c' (Return cur);
              EvExecute cur query (Raise e); EvExit c (Some e) r] /\
         o_result (execute_query query commit fetch rdf rrec rcur self d)
           = match r with
             | Return false => Raise e
             | Return true => Return RetNone
             | Raise e' => Raise e'
             end /\
         o_self (execute_query query commit fetch rdf rrec rcur self d) = self) /\
    (forall c r,
       In (EvRollback c r)
          (o_events (execute_query query commit fetch rdf rrec rcur self d)) ->
       exists e',
         is_Exception e' = true /\
         In (EvCommit c (Raise e'))
            (o_events (execute_query query commit fetch rdf rrec rcur self d))).
Proof.
  intros self d query commit fetch rdf rrec rcur.
  unfold_methods.
  destruct (connection self) as [c0|] eqn:Hc; cbn;
    [|split; [intros cur e [] | intros c r []]].
  destruct (fetch_in_one_all fetch); cbn;
    [|split; [intros cur e [] | intros c r []]].
  destruct (negb rdf || negb rrec); cbn;
    [|split; [intros cur e [] | intros c r []]].
  destruct commit, rcur; run.
  all: split;
    [ intros cur e Hin; split_membership; try discriminate
    | intros c r' Hin; split_membership; try discriminate ].
  all: try match goal with
           | Heq : EvExecute _ _ _ = EvExecute _ _ _ |- _ =>
               injection Heq as -> ->
           | Heq : EvRollback _ _ = EvRollback _ _ |- _ =>
               injection Heq as -> _
           end.
  all: try (eexists _, _, _; repeat split; reflexivity).
  all: eexists; split; [eassumption | cbn; auto 10].
Qed.

(** *** Cursors *)

(** C2, the amended claim.  A call that returns a value, no exception
    having been handed to the block's [__exit__], hands back, with
    [return_cursor=True], the cursor it created, on which (as on any
    cursor) it issued no [close], in the commit branch and in the read
    branch alike; with [return_cursor=False] it hands back no cursor and
    [close] returned on the cursor it created.  When [cursor.execute]
    raises, no [close] is issued on any cursor: the exception is handed to
    [__exit__], and reaches the caller when [__exit__] returns a false
    value. *)
Theorem cursor_handed_back_or_closed_on_return :
  forall (self : SQLConnector) (d : D) query commit fetch rdf rrec rcur,
    (forall v,
       o_result (execute_query query commit fetch rdf rrec rcur self d)
         = Return v ->
       (forall c e r,
          ~ In (EvExit c (Some e) r)
               (o_events (execute_query query commit fetch rdf rrec rcur self d))) ->
       exists c cur res,
         In (EvCursor c (Return cur))
            (o_events (execute_query query commit fetch rdf rrec rcur self d)) /\
         v = hands_back commit rcur res cur /\
         if rcur then
           forall cur' r,
             ~ In (EvCursorClose cur' r)
                  (o_events (execute_query query commit fetch rdf rrec rcur self d))
         else
           In (EvCursorClose cur (Return tt))
              (o_events (execute_query query commit fetch rdf rrec rcur self d))) /\
    (forall cur e,
       In (EvExecute cur query (Raise e))
          (o_events (execute_query query commit fetch rdf rrec rcur self d)) ->
       (forall cur' r,
          ~ In (EvCursorClose cur' r)
               (o_events (execute_query query commit fetch rdf rrec rcur self d))) /\
       exists c r,
         In (EvExit c (Some e) r)
            (o_events (execute_query query commit fetch rdf rrec rcur self d)) /\
         (r = Return false ->
          o_result (execute_query query commit fetch rdf rrec rcur self d)
            = Raise e)).
Proof.
  intros self d query commit fetch rdf rrec rcur.
  unfold_methods.
  destruct (connection self) as [c0|] eqn:Hc; cbn;
    [|split; [intros v Hv; discriminate Hv | intros cur e []]].
  destruct (fetch_in_one_all fetch); cbn;
    [|split; [intros v Hv; discriminate Hv | intros cur e []]].
  destruct (negb rdf || negb rrec); cbn;
    [|split; [intros v Hv; discriminate Hv | intros cur e []]].
  destruct commit, rcur; run.
  all: split;
    [ intros v Hv Hno; try discriminate Hv;
      try (exfalso; eapply Hno; cbn; eauto 12; fail)
    | intros cur e Hin; split_membership; try discriminate;
      match goal with
      | Heq : EvExecute _ _ _ = EvExecute _ _ _ |- _ => injection Heq as -> ->
      end;
      (split;
       [ intros cur' r' Hcl; cbn in Hcl; split_membership; discriminate
       | eexists _, _; split;
         [ cbn; eauto 12
         | intros Hr; try discriminate Hr; reflexivity ] ]) ].
  all: injection Hv as <-.
  all: eexists _, _, _; split; [cbn; eauto 10|].
  all: split; [unfold hands_back; reflexivity|].
  all: cbn; try tauto.
  all: try (intros cur' r' Hcl; split_membership; discriminate).
  all: split_membership; eauto 10.
  Unshelve. all: exact (Rows []).
Qed.

(** *** Reading rows *)

Lemma dict_setitem_fresh :
  forall k v (d : dict),
    ~ In k (map fst d) -> dict_setitem k v d = d ++ [(k, v)].
Proof.
  intros k v d; induction d as [|[k' v'] d IH]; cbn; intros Hk.
  - reflexivity.
  - destruct (String.eqb_spec k' k) as [->|Hne].
    + exfalso; apply Hk; now left.
    + rewrite IH; [reflexivity|]. intros Hin; apply Hk; now right.
Qed.

Lemma fold_setitem_distinct :
  forall (items : list value) (columns : list string) (acc : dict),
    NoDup columns ->
    (forall k, In k columns -> ~ In k (map fst acc)) ->
    fold_left (fun d vc => dict_setitem (snd vc) (fst vc) d)
              (combine items columns) acc
      = acc ++ combine columns items.
Proof.
  induction items as [|v items IH]; intros columns acc Hnd Hfresh.
  - cbn. destruct columns; cbn; now rewrite app_nil_r.
  - destruct columns as [|k columns]; cbn.
    + now rewrite app_nil_r.
    + inversion Hnd as [|? ? Hk Hnd']; subst.
      rewrite dict_setitem_fresh by (apply Hfresh; now left).
      rewrite IH; [now rewrite <- app_assoc| assumption |].
      intros k' Hk' Hin. rewrite map_app, in_app_iff in Hin.
      destruct Hin as [Hin|[<-|[]]].
      * apply (Hfresh k'); [now right | assumption].
      * contradiction.
Qed.

(** With distinct column names a record lists the columns in their order,
    each with the row's value at that position. *)
Lemma record_of_distinct_columns :
  forall (columns : list string) (row : row_obj),
    NoDup columns ->
    record_of columns row = combine columns (items_of row).
Proof.
  intros columns row Hnd. unfold record_of.
  rewrite fold_setitem_distinct; [reflexivity | assumption | intros k _ []].
Qed.

Lemma dict_get_setitem :
  forall k k' v (d : dict),
    dict_get k (dict_setitem k' v d)
      = if String.eqb k' k then Some v else dict_get k d.
Proof.
  intros k k' v d; induction d as [|[k1 v1] d IH]; cbn.
  - reflexivity.
  - destruct (String.eqb_spec k1 k') as [->|Hne]; cbn.
    + destruct (String.eqb k' k); reflexivity.
    + rewrite IH. destruct (String.eqb_spec k1 k) as [->|Hne1];
        [|reflexivity].
      destruct (String.eqb_spec k' k) as [->|_]; [contradiction | reflexivity].
Qed.

Lemma find_last :
  forall {A} (f : A -> bool) (l : list A) (x : A),
    find f (l ++ [x])
      = match find f l with
        | Some y => Some y
        | None => if f x then Some x else None
        end.
Proof.
  intros A f l x; induction l as [|y l IH]; cbn.
  - reflexivity.
  - destruct (f y); [reflexivity | exact IH].
Qed.

Lemma fold_setitem_lookup :
  forall (k : string) (pairs : list (value * string)) (acc : dict),
    dict_get k (fold_left (fun d vc => dict_setitem (snd vc) (fst vc) d) pairs acc)
      = match find (fun vc => String.eqb (snd vc) k) (rev pairs) with
        | Some vc => Some (fst vc)
        | None => dict_get k acc
        end.
Proof.
  intros k pairs; induction pairs as [|[v c] pairs IH]; intros acc; cbn.
  - reflexivity.
  - rewrite IH, find_last; cbn.
    destruct (find _ (rev pairs)); [reflexivity|].
    rewrite dict_get_setitem. destruct (String.eqb c k); reflexivity.
Qed.

(** Whatever the column names, looking a column up in a record gives the
    row's value under that column (the last one, if the name repeats). *)
Lemma record_of_lookup :
  forall (columns : list string) (row : row_obj) (k : string),
    dict_get k (record_of columns row)
      = option_map fst
          (find (fun vc => String.eqb (snd vc) k)
                (rev (combine (items_of row) columns))).
Proof.
  intros columns row k. unfold record_of.
  rewrite fold_setitem_lookup.
  destruct (find _ _); reflexivity.
Qed.

(** C6. A read with [return_records=True] that returns (on a driver whose
    [__exit__] lets exceptions through) hands back one record per fetched
    row, in fetch order, each built from the row and the column names of
    [cursor.description] by the comprehension [record_of]; a record maps
    each column name to the row's value under it, and with distinct column
    names it is the list of (column, value) pairs in column order; and the
    rows (1,"a"), (2,"b") over the columns id, name come back as the
    records (id: 1, name: "a"), (id: 2, name: "b"). *)
Theorem records_keep_column_and_fetch_order :
  (forall (self : SQLConnector) (d : D) query fetch rdf rcur v,
     exit_propagates ->
     o_result (execute_query query false fetch rdf true rcur self d)
       = Return v ->
     exists cur rows cols,
       fetched fetch cur rows
         (o_events (execute_query query false fetch rdf true rcur self d)) /\
       In (EvDescription cur (Some cols))
          (o_events (execute_query query false fetch rdf true rcur self d)) /\
       v = hands_back false rcur
             (Records (map (record_of (map col_name cols)) rows)) cur) /\
  (forall (columns : list string) (row : row_obj) (k : string),
     dict_get k (record_of columns row)
       = option_map fst
           (find (fun vc => String.eqb (snd vc) k)
                 (rev (combine (items_of row) columns)))) /\
  (forall (columns : list string) (row : row_obj),
     NoDup columns ->
     record_of columns row = combine columns (items_of row)) /\
  o_result (execute_query "SELECT id, name FROM t" false "all" false true false
              connected fake_table)
    = Return (RetResults (Records [ [("id", VInt 1); ("name", VStr "a")];
                                    [("id", VInt 2); ("name", VStr "b")] ])).
Proof.
  split; [|split; [exact record_of_lookup
                  |split; [exact record_of_distinct_columns | reflexivity]]].
  intros self d query fetch rdf rcur v Hex.
  unfold fetched. unfold_methods.
  destruct (connection self) as [c0|] eqn:Hc; cbn; [|discriminate].
  destruct (fetch_in_one_all fetch); cbn; [|discriminate].
  destruct rdf; cbn; [discriminate|].
  destruct rcur; run.
  all: intros Hv; try discriminate Hv; try contract_absurd.
  all: injection Hv as <-.
  all: eexists _, _, _; split; [eexists; split; [cbn; eauto 10 | reflexivity]|].
  all: split; [cbn; eauto 10 | reflexivity].
Qed.

(** C7. A read with [fetch="one"] that returns (on a driver whose
    [__exit__] lets exceptions through) made one [fetchone] and no
    [fetchall]; what it hands back is built from the empty list when
    [fetchone] gave [None] and from the one-element list holding the row,
    as the driver delivered it, when it gave a row; with neither
    dataframe nor records asked for, that list is the result itself. *)
Theorem fetch_one_yields_zero_or_one_row :
  forall (self : SQLConnector) (d : D) query rdf rrec rcur v,
    exit_propagates ->
    o_result (execute_query query false "one" rdf rrec rcur self d)
      = Return v ->
    exists cur r cols,
      In (EvFetchone cur (Return r))
         (o_events (execute_query query false "one" rdf rrec rcur self d)) /\
      (forall cur' r',
         ~ In (EvFetchall cur' r')
              (o_events (execute_query query false "one" rdf rrec rcur self d))) /\
      In (EvDescription cur (Some cols))
         (o_events (execute_query query false "one" rdf rrec rcur self d)) /\
      let rows := match r with None => [] | Some row => [PyTuple row] end in
      (exists res,
         reshape rdf rrec rows (map col_name cols) = Return res /\
         v = hands_back false rcur res cur) /\
      (rdf = false -> rrec = false ->
       v = hands_back false rcur (Rows rows) cur).
Proof.
  intros self d query rdf rrec rcur v Hex.
  unfold_methods.
  destruct (connection self) as [c0|] eqn:Hc; cbn; [|discriminate].
  destruct (negb rdf || negb rrec); cbn; [|discriminate].
  destruct rcur; run.
  all: intros Hv; try discriminate Hv; try contract_absurd.
  all: injection Hv as <-.
  all: eexists _, _, _; split; [cbn; eauto 10|].
  all: split; [intros cur' r' Hin; cbn in Hin; split_membership; discriminate|].
  all: split; [cbn; eauto 10|].
  all: cbn; split; [eexists; split; [eassumption | reflexivity]|].
  all: intros -> ->; cbn in *.
  all: match goal with
       | Heq : Return _ = Return _ |- _ => injection Heq as <-
       end; reflexivity.
Qed.

(** *** [open_connection] *)

(** C9. When the driver's connect raises, the caller gets that very
    exception and the connector holds no connection: a following
    [close_connection] or [execute_query] fails on the decorator, without
    any driver call. *)
Theorem connect_failure_leaves_no_connection :
  forall (self : SQLConnector) (d : D) db u pw h p ct a1 a2 a3 a4 a5 e,
    In (EvConnect a1 a2 a3 a4 a5 (Raise e))
       (o_events (open_connection db u pw h p ct self d)) ->
    let o := open_connection db u pw h p ct self d in
    o_result o = Raise e /\
    connection (o_self o) = None /\
    close_connection (o_self o) (o_drv o)
      = untouched (o_self o) (o_drv o) (Raise PreconditionError) /\
    forall query commit fetch rdf rrec rcur,
      execute_query query commit fetch rdf rrec rcur (o_self o) (o_drv o)
        = untouched (o_self o) (o_drv o) (Raise PreconditionError).
Proof.
  intros self d db u pw h p ct a1 a2 a3 a4 a5 e Hin o.
  assert (Hres : o_result o = Raise e /\ connection (o_self o) = None).
  { subst o. revert Hin. unfold_methods.
    destruct (connection self) as [c0|] eqn:Hc; cbn; run.
    all: intros Hin; split_membership; try discriminate.
    all: match goal with
         | Heq : EvConnect _ _ _ _ _ _ = EvConnect _ _ _ _ _ _ |- _ =>
             injection Heq as _ _ _ _ _ ->
         end.
    all: split; [reflexivity | cbn; try assumption; reflexivity]. }
  destruct Hres as [Hr Hnone].
  repeat split; try assumption.
  - now apply close_connection_without_connection.
  - intros. now apply execute_query_without_connection.
Qed.

(** C10. Whenever [open_connection] gets as far as the driver's connect,
    the five config attributes already hold the values just passed in, and
    those are the values the connect is called with; so when the connect
    raises, the exception propagates from a connector that stores the
    failed attempt's config and holds no connection. *)
Theorem config_is_stored_before_connect :
  forall (self : SQLConnector) (d : D) db u pw h p ct a1 a2 a3 a4 a5 r,
    In (EvConnect a1 a2 a3 a4 a5 r)
       (o_events (open_connection db u pw h p ct self d)) ->
    let o := open_connection db u pw h p ct self d in
    (a1, a2, a3, a4, a5) = (db, u, pw, h, p) /\
    database (o_self o) = Some db /\
    user (o_self o) = Some u /\
    password (o_self o) = Some pw /\
    host (o_self o) = Some h /\
    port (o_self o) = Some p /\
    forall e, r = Raise e ->
      o_result o = Raise e /\ connection (o_self o) = None.
Proof.
  intros self d db u pw h p ct a1 a2 a3 a4 a5 r Hin o.
  subst o. revert Hin. unfold_methods.
  destruct (connection self) as [c0|] eqn:Hc; cbn; run.
  all: intros Hin; split_membership; try discriminate.
  all: match goal with
       | Heq : EvConnect _ _ _ _ _ _ = EvConnect _ _ _ _ _ _ |- _ =>
           injection Heq as <- <- <- <- <- <-
       end.
  all: repeat split; try reflexivity.
  all: try match goal with
           | Heq : Return _ = Raise _ |- _ => discriminate Heq
           | Heq : Raise _ = Raise _ |- _ => injection Heq as <-
           end.
  all: cbn; try assumption; reflexivity.
Qed.

(** *** Live handles *)

Lemma conn_eqb_refl : forall c, conn_eqb c c = true.
Proof. intros [i]; cbn; apply Nat.eqb_refl. Qed.

Lemma bounded_throughout_start :
  forall l evs, bounded_throughout l evs -> length l <= 1.
Proof. intros l [|ev evs] [Hl _]; exact Hl. Qed.

Lemma bounded_throughout_app :
  forall l1 l2 l,
    bounded_throughout l l1 ->
    bounded_throughout (live_after l l1) l2 ->
    bounded_throughout l (l1 ++ l2).
Proof.
  induction l1 as [|ev l1 IH]; intros l2 l H1 H2; cbn in *.
  - exact H2.
  - destruct H1 as [Hl H1]. split; [exact Hl|]. now apply IH.
Qed.

Lemma bounded_throughout_prefix :
  forall evs l n,
    bounded_throughout l evs -> length (live_after l (firstn n evs)) <= 1.
Proof.
  induction evs as [|ev evs IH]; intros l n Hb.
  - rewrite firstn_nil. cbn. now apply bounded_throughout_start in Hb.
  - destruct n as [|n]; cbn.
    + now apply bounded_throughout_start in Hb.
    + apply IH. now destruct Hb.
Qed.

Lemma untouched_handles :
  forall evs l,
    Forall (fun ev => touches_handles ev = false) evs ->
    live_after l evs = l /\ (length l <= 1 -> bounded_throughout l evs).
Proof.
  induction evs as [|ev evs IH]; intros l Hall; cbn.
  - split; [reflexivity | intros Hl; split; [exact Hl | exact I]].
  - inversion Hall as [|? ? Hev Hevs]; subst.
    assert (Hstep : live_step l ev = l).
    { destruct ev; try reflexivity; destruct r; try reflexivity;
        discriminate Hev. }
    rewrite Hstep. destruct (IH l Hevs) as [Hlive Hb].
    split; [exact Hlive | intros Hl; split; [exact Hl | now apply Hb]].
Qed.

(** [execute_query] neither connects nor closes, and leaves the object as
    it found it. *)
Lemma execute_query_keeps_handles :
  forall (self : SQLConnector) (d : D) query commit fetch rdf rrec rcur,
    o_self (execute_query query commit fetch rdf rrec rcur self d) = self /\
    Forall (fun ev => touches_handles ev = false)
      (o_events (execute_query query commit fetch rdf rrec rcur self d)).
Proof.
  intros self d query commit fetch rdf rrec rcur.
  unfold_methods.
  destruct (connection self) as [c0|] eqn:Hc; cbn; [|now split].
  destruct (fetch_in_one_all fetch); cbn; [|now split].
  destruct (negb rdf || negb rrec); cbn; [|now split].
  destruct commit, rcur; run.
  all: split; [reflexivity | repeat constructor].
Qed.

Lemma held_length : forall s, length (held s) <= 1.
Proof. intros s; unfold held; destruct (connection s); cbn; lia. Qed.

(** Every call keeps the live handles equal to the held one, at most one
    being live after each of its events. *)
Lemma run_call_keeps_one_handle :
  forall (k : api_call) (s : SQLConnector) (d : D) s' d' evs,
    run_call k s d = (s', d', evs) ->
    bounded_throughout (held s) evs /\ live_after (held s) evs = held s'.
Proof.
  intros k s d s' d' evs. destruct k as [db u pw h p ct| |q cm f rdf rrec rcur].
  - unfold run_call, held. unfold_methods.
    destruct (connection s) as [c0|] eqn:Hc; cbn; run.
    all: intros Heq; injection Heq as <- <- <-; cbn.
    all: rewrite ?Hc, ?conn_eqb_refl; cbn.
    all: repeat split; cbn; lia.
  - unfold run_call, held. unfold_methods.
    destruct (connection s) as [c0|] eqn:Hc; cbn; run.
    all: intros Heq; injection Heq as <- <- <-; cbn.
    all: rewrite ?Hc, ?conn_eqb_refl; cbn.
    all: repeat split; cbn; lia.
  - unfold run_call. intros Heq; injection Heq as <- <- <-.
    destruct (execute_query_keeps_handles s d q cm f rdf rrec rcur)
      as [Hself Hall].
    rewrite Hself.
    destruct (untouched_handles _ (held s) Hall) as [Hlive Hb].
    split; [apply Hb, held_length | exact Hlive].
Qed.

Lemma run_calls_keep_one_handle :
  forall (ks : list api_call) (s : SQLConnector) (d : D) s' d' evs,
    run_calls ks s d = (s', d', evs) ->
    bounded_throughout (held s) evs /\ live_after (held s) evs = held s'.
Proof.
  induction ks as [|k ks IH]; intros s d s' d' evs; cbn.
  - intros Heq; injection Heq as <- <- <-; cbn.
    split; [split; [apply held_length | exact I] | reflexivity].
  - destruct (run_call k s d) as [[s1 d1] l1] eqn:E1.
    destruct (run_calls ks s1 d1) as [[s2 d2] l2] eqn:E2.
    intros Heq; injection Heq as <- <- <-.
    apply run_call_keeps_one_handle in E1 as [Hb1 Hl1].
    apply IH in E2 as [Hb2 Hl2].
    split.
    + apply bounded_throughout_app; [exact Hb1 | now rewrite Hl1].
    + unfold live_after in *. now rewrite fold_left_app, Hl1.
Qed.

(** C5. Whatever calls a caller makes on a fresh connector - opens in any
    number, closes and queries between them, returning or raising - at
    most one connection handle is live after every event of the trace, and
    it is the one the connector holds.  An [open_connection] on a connector
    that holds a connection starts by running [close_connection]: when the
    close returns, the handle is released and the attribute deleted before
    the connect is issued; when it raises, no connect is issued and the old
    connection stays held. *)
Theorem at_most_one_live_connection :
  (forall (calls : list api_call) (d : D) n,
     length (live (firstn n (snd (run_calls calls __init__ d)))) <= 1) /\
  (forall (calls : list api_call) (d : D),
     live (snd (run_calls calls __init__ d))
       = held (fst (fst (run_calls calls __init__ d)))) /\
  (forall (self : SQLConnector) (d : D) c db u pw h p ct,
     connection self = Some c ->
     let o := open_connection db u pw h p ct self d in
     let k := close_connection self d in
     match o_result k with
     | Return _ =>
         o_events k = [EvConnClose c (Return tt); EvGcCollect;
                       EvPrint "connection closed"] /\
         connection (o_self k) = None /\
         exists r,
           o_events o = o_events k ++ [EvConnect db u pw h p r] /\
           connection (o_self o)
             = match r with Return c' => Some c' | Raise _ => None end
     | Raise e =>
         o_events k = [EvConnClose c (Raise e)] /\
         o_events o = o_events k /\
         o_result o = Raise e /\
         o_self o = self
     end).
Proof.
  split; [|split].
  - intros calls d n.
    destruct (run_calls calls __init__ d) as [[s' d'] evs] eqn:E.
    apply run_calls_keep_one_handle in E as [Hb _].
    cbn [snd]. unfold live. now apply bounded_throughout_prefix.
  - intros calls d.
    destruct (run_calls calls __init__ d) as [[s' d'] evs] eqn:E.
    apply run_calls_keep_one_handle in E as [_ Hl]. exact Hl.
  - intros self d c db u pw h p ct Hc o k. subst o k.
    unfold_methods. rewrite Hc; cbn; run.
    all: split_membership.
    all: cbn; repeat split; try reflexivity; rewrite ?Hc; try reflexivity.
    all: eexists; split; reflexivity.
Qed.

End Properties.

(** ** The scripted driver meets the contract *)

Lemma fake_exit_propagates : exit_propagates (D := fake_db).
Proof. intros c e d; reflexivity. Qed.

(** ** The theorems at work on concrete calls *)

Lemma commit_failure_is_recovered_witness :
  exists c' cur r post,
    o_events (execute_query "UPDATE t SET n = 1" true "all" false false false
                connected fake_commit_fails)
      = [EvEnter (Conn 0) (Return c'); EvCursor c' (Return cur);
         EvExecute cur "UPDATE t SET n = 1" (Return tt);
         EvCommit (Conn 0)
           (Raise (DriverError "OperationalError" "server closed the connection"));
         EvRollback (Conn 0) r] ++ post /\
    ((forall ev, In ev (EvRollback (Conn 0) r :: post) -> raised_by ev = None) ->
     o_result (execute_query "UPDATE t SET n = 1" true "all" false false false
                 connected fake_commit_fails)
       = Return RetNone /\
     exists b,
       post = [EvPrint "server closed the connection"]
              ++ [EvCursorClose cur (Return tt)]
              ++ [EvExit (Conn 0) None (Return b)]).
Proof.
  exact (commit_failure_is_recovered connected fake_commit_fails
           "UPDATE t SET n = 1" "all" false false false (Conn 0)
           (DriverError "OperationalError" "server closed the connection")
           (or_intror (or_intror (or_intror (or_introl eq_refl))))
           eq_refl).
Defined.

(** C1 as stated fails: when the rollback of the handler raises too, the
    call raises that exception and prints nothing; and a commit
    interrupted from the keyboard is not caught at all - the call raises
    without any rollback. *)
Lemma commit_failure_raises_when_rollback_fails :
  (In (EvCommit (Conn 0) (Raise (DriverError "OperationalError" "commit failed")))
      (o_events (execute_query "UPDATE t SET n = 1" true "all" false false false
                   connected flaky_rollback_fails)) /\
   o_result (execute_query "UPDATE t SET n = 1" true "all" false false false
               connected flaky_rollback_fails)
     = Raise (DriverError "InterfaceError" "rollback failed") /\
   forall msg,
     ~ In (EvPrint msg)
          (o_events (execute_query "UPDATE t SET n = 1" true "all" false false
                       false connected flaky_rollback_fails))) /\
  (In (EvCommit (Conn 0) (Raise (BaseExn "KeyboardInterrupt" "")))
      (o_events (execute_query "UPDATE t SET n = 1" true "all" false false false
                   connected flaky_interrupted)) /\
   o_result (execute_query "UPDATE t SET n = 1" true "all" false false false
               connected flaky_interrupted)
     = Raise (BaseExn "KeyboardInterrupt" "") /\
   forall c r,
     ~ In (EvRollback c r)
          (o_events (execute_query "UPDATE t SET n = 1" true "all" false false
                       false connected flaky_interrupted))).
Proof.
  split; (split; [cbn; tauto|]; split; [reflexivity|]).
  - intros msg Hin. cbn in Hin.
    repeat (destruct Hin as [Hin|Hin]; [discriminate Hin|]). exact Hin.
  - intros c r Hin. cbn in Hin.
    repeat (destruct Hin as [Hin|Hin]; [discriminate Hin|]). exact Hin.
Qed.

(** C2 as stated fails: with [return_cursor=False], a call whose
    [cursor.execute] raises propagates the error and leaves the cursor it
    created without a [close]. *)
Lemma cursor_left_open_when_execute_raises :
  o_result (execute_query "SELEC 1" false "all" false false false
              connected fake_execute_fails)
    = Raise (DriverError "SyntaxError" "syntax error at or near SELEC") /\
  o_events (execute_query "SELEC 1" false "all" false false false
              connected fake_execute_fails)
    = [EvEnter (Conn 0) (Return (Conn 0));
       EvCursor (Conn 0) (Return (Cursor 1));
       EvExecute (Cursor 1) "SELEC 1"
         (Raise (DriverError "SyntaxError" "syntax error at or near SELEC"));
       EvExit (Conn 0)
         (Some (DriverError "SyntaxError" "syntax error at or near SELEC"))
         (Return false)] /\
  ~ closes_every_cursor
      (o_events (execute_query "SELEC 1" false "all" false false false
                   connected fake_execute_fails)).
Proof.
  split; [reflexivity|]. split; [reflexivity|].
  intros Hall.
  destruct (Hall (Conn 0) (Cursor 1)) as [r Hin].
  - cbn. right; left; reflexivity.
  - cbn in Hin. repeat (destruct Hin as [Hin|Hin]; [discriminate Hin|]).
    exact Hin.
Qed.

Lemma cursor_handed_back_or_closed_on_return_witness :
  exists c cur res,
    In (EvCursor c (Return cur))
       (o_events (execute_query "SELECT id, name FROM t" false "all" false
                    false true connected fake_table)) /\
    RetResultsCursor
      (Rows [PyList [VInt 1; VStr "a"]; PyList [VInt 2; VStr "b"]]) (Cursor 1)
      = hands_back false true res cur /\
    forall cur' r,
      ~ In (EvCursorClose cur' r)
           (o_events (execute_query "SELECT id, name FROM t" false "all"
                        false false true connected fake_table)).
Proof.
  refine (proj1 (cursor_handed_back_or_closed_on_return connected fake_table
                   "SELECT id, name FROM t" false "all" false false true)
            (RetResultsCursor
               (Rows [PyList [VInt 1; VStr "a"]; PyList [VInt 2; VStr "b"]])
               (Cursor 1))
            eq_refl _).
  intros c e r Hin. cbn in Hin.
  repeat (destruct Hin as [Hin|Hin]; [discriminate Hin|]). exact Hin.
Defined.

Lemma execute_error_propagates_witness :
  exists c c' r,
    connection connected = Some c /\
    o_events (execute_query "SELEC 1" true "all" false false false
                connected fake_execute_fails)
      = [EvEnter c (Return c'); EvCursor c' (Return (Cursor 1));
         EvExecute (Cursor 1) "SELEC 1"
           (Raise (DriverError "SyntaxError" "syntax error at or near SELEC"));
         EvExit c
           (Some (DriverError "SyntaxError" "syntax error at or near SELEC"))
           r] /\
    o_result (execute_query "SELEC 1" true "all" false false false
                connected fake_execute_fails)
      = match r with
        | Return false =>
            Raise (DriverError "SyntaxError" "syntax error at or near SELEC")
        | Return true => Return RetNone
        | Raise e' => Raise e'
        end /\
    o_self (execute_query "SELEC 1" true "all" false false false
              connected fake_execute_fails) = connected.
Proof.
  exact (proj1 (execute_error_propagates connected fake_execute_fails "SELEC 1"
                  true "all" false false false)
           (Cursor 1)
           (DriverError "SyntaxError" "syntax error at or near SELEC")
           (or_intror (or_intror (or_introl eq_refl)))).
Defined.

(** C8 as stated fails: on a connection that went away the execute raises
    one exception and the block's exit, handed it, raises another; the
    caller gets the second, not the error of the execute. *)
Lemma execute_error_replaced_by_exit_error :
  In (EvExecute (Cursor 3) "SELECT 1"
        (Raise (DriverError "OperationalError"
                  "server closed the connection unexpectedly")))
     (o_events (execute_query "SELECT 1" false "all" false false false
                  connected lost_connection)) /\
  o_result (execute_query "SELECT 1" false "all" false false false
              connected lost_connection)
    = Raise (DriverError "InterfaceError" "connection already closed") /\
  o_result (execute_query "SELECT 1" false "all" false false false
              connected lost_connection)
    <> Raise (DriverError "OperationalError"
                "server closed the connection unexpectedly").
Proof.
  split; [cbn; tauto|]. split; [reflexivity | discriminate].
Qed.

Lemma fetch_one_yields_zero_or_one_row_witness :
  exists cur r cols,
    In (EvFetchone cur (Return r))
       (o_events (execute_query "SELECT id, name FROM t" false "one" false false
                    false connected fake_table)) /\
    (forall cur' r',
       ~ In (EvFetchall cur' r')
            (o_events (execute_query "SELECT id, name FROM t" false "one" false
                         false false connected fake_table))) /\
    In (EvDescription cur (Some cols))
       (o_events (execute_query "SELECT id, name FROM t" false "one" false false
                    false connected fake_table)) /\
    let rows := match r with None => [] | Some row => [PyTuple row] end in
    (exists res,
       reshape false false rows (map col_name cols) = Return res /\
       RetResults (Rows [PyTuple [VInt 1; VStr "a"]])
         = hands_back false false res cur) /\
    (false = false -> false = false ->
     RetResults (Rows [PyTuple [VInt 1; VStr "a"]])
       = hands_back false false (Rows rows) cur).
Proof.
  exact (fetch_one_yields_zero_or_one_row connected fake_table
           "SELECT id, name FROM t" false false false
           (RetResults (Rows [PyTuple [VInt 1; VStr "a"]]))
           fake_exit_propagates eq_refl).
Defined.

Lemma records_keep_column_and_fetch_order_witness :
  exists cur rows cols,
    fetched "all" cur rows
      (o_events (execute_query "SELECT id, name FROM t" false "all" false true
                   false connected fake_table)) /\
    In (EvDescription cur (Some cols))
       (o_events (execute_query "SELECT id, name FROM t" false "all" false true
                    false connected fake_table)) /\
    RetResults (Records [ [("id", VInt 1); ("name", VStr "a")];
                          [("id", VInt 2); ("name", VStr "b")] ])
      = hands_back false false
          (Records (map (record_of (map col_name cols)) rows)) cur.
Proof.
  exact (proj1 (records_keep_column_and_fetch_order (D := fake_db))
           connected fake_table "SELECT id, name FROM t" "all" false false
           (RetResults (Records [ [("id", VInt 1); ("name", VStr "a")];
                                  [("id", VInt 2); ("name", VStr "b")] ]))
           fake_exit_propagates eq_refl).
Defined.

Lemma connect_failure_leaves_no_connection_witness :
  o_result (open_connection (Some "shop") (Some "ana") (Some "pw")
              (Some "db.local") (Some "5432") "postgres" connected
              fake_connect_fails)
    = Raise (DriverError "OperationalError" "could not connect to server") /\
  connection (o_self (open_connection (Some "shop") (Some "ana") (Some "pw")
                        (Some "db.local") (Some "5432") "postgres" connected
                        fake_connect_fails)) = None.
Proof.
  pose proof (connect_failure_leaves_no_connection connected fake_connect_fails
                (Some "shop") (Some "ana") (Some "pw") (Some "db.local")
                (Some "5432") "postgres"
                (Some "shop") (Some "ana") (Some "pw") (Some "db.local")
                (Some "5432")
                (DriverError "OperationalError" "could not connect to server")
                (or_intror (or_intror (or_intror (or_introl eq_refl)))))
    as [Hr [Hnone _]].
  split; [exact Hr | exact Hnone].
Defined.

Lemma config_is_stored_before_connect_witness :
  database (o_self (open_connection (Some "shop") (Some "ana") (Some "pw")
                      (Some "db.local") (Some "5432") "postgres" __init__
                      fake_connect_fails)) = Some (Some "shop") /\
  port (o_self (open_connection (Some "shop") (Some "ana") (Some "pw")
                  (Some "db.local") (Some "5432") "postgres" __init__
                  fake_connect_fails)) = Some (Some "5432") /\
  connection (o_self (open_connection (Some "shop") (Some "ana") (Some "pw")
                        (Some "db.local") (Some "5432") "postgres" __init__
                        fake_connect_fails)) = None.
Proof.
  pose proof (config_is_stored_before_connect __init__ fake_connect_fails
                (Some "shop") (Some "ana") (Some "pw") (Some "db.local")
                (Some "5432") "postgres"
                (Some "shop") (Some "ana") (Some "pw") (Some "db.local")
                (Some "5432")
                (Raise (DriverError "OperationalError" "could not connect to server"))
                (or_introl eq_refl))
    as [_ [Hdb [_ [_ [_ [Hport Hfail]]]]]].
  split; [exact Hdb|]. split; [exact Hport|].
  exact (proj2 (Hfail _ eq_refl)).
Defined.

Lemma at_most_one_live_connection_witness :
  (o_events (close_connection connected fake_table)
     = [EvConnClose (Conn 0) (Return tt); EvGcCollect;
        EvPrint "connection closed"] /\
   connection (o_self (close_connection connected fake_table)) = None /\
   exists r,
     o_events (open_connection (Some "shop") (Some "ana") (Some "pw")
                 (Some "db.local") (Some "5432") "postgres" connected fake_table)
       = o_events (close_connection connected fake_table)
         ++ [EvConnect (Some "shop") (Some "ana") (Some "pw") (Some "db.local")
               (Some "5432") r] /\
     connection (o_self (open_connection (Some "shop") (Some "ana") (Some "pw")
                           (Some "db.local") (Some "5432") "postgres" connected
                           fake_table))
       = match r with Return c' => Some c' | Raise _ => None end) /\
  length (live (firstn 4 (snd (run_calls
            [CallOpen (Some "shop") (Some "ana") (Some "pw") (Some "db.local")
               (Some "5432") "postgres";
             CallOpen (Some "shop") (Some "bob") (Some "pw") (Some "db.local")
               (Some "5432") "postgres"] __init__ fake_ok)))) <= 1.
Proof.
  split.
  - exact (proj2 (proj2 (at_most_one_live_connection (D := fake_db)))
             connected fake_table (Conn 0) (Some "shop") (Some "ana")
             (Some "pw") (Some "db.local") (Some "5432") "postgres" eq_refl).
  - exact (proj1 (at_most_one_live_connection (D := fake_db)) _ fake_ok 4).
Defined.

Lemma invalid_request_fails_before_driver_witness :
  execute_query "DROP TABLE t" true "many" false false true
      (with_connection (Some (Conn 0)) __init__) fake_ok
    = untouched (with_connection (Some (Conn 0)) __init__) fake_ok
        (Raise ValidationError_fetch).
Proof.
  apply (invalid_request_fails_before_driver
           (with_connection (Some (Conn 0)) __init__) fake_ok
           "DROP TABLE t" true "many" false false true).
  left. split; discriminate.
Defined.

Lemma no_connection_fails_precondition_witness :
  close_connection __init__ fake_ok
    = untouched __init__ fake_ok (Raise PreconditionError) /\
  execute_query "SELECT 1" false "all" false false false __init__ fake_ok
    = untouched __init__ fake_ok (Raise PreconditionError).
Proof.
  apply (no_connection_fails_precondition __init__ fake_ok "SELECT 1" false
           "all" false false false).
  reflexivity.
Defined.

(** * Further properties of the three methods *)

Section Further.

Context {D : Type} `{Driver D}.

(** *** The decorator *)

(** [_check_connection] guards any method the same way: on a connector
    that holds no connection the method is not run at all and the call
    fails as [PreconditionError], nothing touched; on one that holds a
    connection the decorator adds nothing - the outcome is the method's
    own. *)
Theorem check_connection_guards_any_method :
  forall (A : Type) (func : SQLConnector -> D -> outcome A)
         (self : SQLConnector) (d : D),
    _check_connection func self d
      = match connection self with
        | Some _ => func self d
        | None => untouched self d (Raise PreconditionError)
        end.
Proof.
  intros A func self d.
  unfold _check_connection, bind, get_self, py_assert, hasattr_connection,
    ret, raise, untouched.
  destruct (connection self) as [c|]; [|reflexivity].
  destruct (func self d) as [s1 d1 l1 [a|e]]; reflexivity.
Qed.

(** *** [close_connection] *)

(** When the driver's [close] raises, [close_connection] passes the
    exception on before [del self.connection]: the connector is unchanged
    (it still holds the connection), nothing is collected and nothing is
    printed. *)
Theorem close_failure_keeps_the_connection :
  forall (self : SQLConnector) (d : D) c e,
    connection self = Some c ->
    snd (conn_close c d) = Raise e ->
    close_connection self d
      = {| o_self := self; o_drv := fst (conn_close c d);
           o_events := [EvConnClose c (Raise e)]; o_result := Raise e |}.
Proof.
  intros self d c e Hc Hclose.
  unfold_methods. rewrite Hc; cbn. rewrite Hc; cbn.
  destruct (conn_close c d) as [d' r]; cbn in *. subst r. reflexivity.
Qed.

(** [close_connection] never touches the stored config: database, user,
    password, host and port are after the call what they were before it,
    whether it returned or raised. *)
Theorem close_keeps_the_config :
  forall (self : SQLConnector) (d : D),
    database (o_self (close_connection self d)) = database self /\
    user (o_self (close_connection self d)) = user self /\
    password (o_self (close_connection self d)) = password self /\
    host (o_self (close_connection self d)) = host self /\
    port (o_self (close_connection self d)) = port self.
Proof.
  intros self d. unfold_methods.
  destruct (connection self) as [c|] eqn:Hc; cbn; run.
  all: repeat split; reflexivity.
Qed.

(** After a [close_connection] that returned, the connector is back to
    holding nothing: closing again, or querying, fails on the decorator
    without reaching the driver. *)
Theorem closed_connector_refuses_calls :
  forall (self : SQLConnector) (d : D),
    o_result (close_connection self d) = Return tt ->
    close_connection (o_self (close_connection self d))
                     (o_drv (close_connection self d))
      = untouched (o_self (close_connection self d))
                  (o_drv (close_connection self d)) (Raise PreconditionError) /\
    forall query commit fetch rdf rrec rcur,
      execute_query query commit fetch rdf rrec rcur
                    (o_self (close_connection self d))
                    (o_drv (close_connection self d))
        = untouched (o_self (close_connection self d))
                    (o_drv (close_connection self d)) (Raise PreconditionError).
Proof.
  intros self d Hret.
  assert (Hnone : connection (o_self (close_connection self d)) = None).
  { revert Hret. unfold_methods.
    destruct (connection self) as [c|] eqn:Hc; cbn; run; try discriminate.
    reflexivity. }
  split.
  - now apply close_connection_without_connection.
  - intros. now apply execute_query_without_connection.
Qed.

(** *** [open_connection] *)

(** On a connector that holds no connection [open_connection] makes one
    driver call, the connect with the five values passed in; it stores the
    config, and the handle when the connect returns; when the connect
    raises, that exception is the result. *)
Theorem open_on_idle_connector :
  forall (self : SQLConnector) (d : D) db u pw h p ct,
    connection self = None ->
    o_events (open_connection db u pw h p ct self d)
      = [EvConnect db u pw h p (snd (psycopg2_connect db u pw h p d))] /\
    o_drv (open_connection db u pw h p ct self d)
      = fst (psycopg2_connect db u pw h p d) /\
    o_result (open_connection db u pw h p ct self d)
      = match snd (psycopg2_connect db u pw h p d) with
        | Return _ => Return tt
        | Raise e => Raise e
        end /\
    o_self (open_connection db u pw h p ct self d)
      = {| connection := match snd (psycopg2_connect db u pw h p d) with
                         | Return c => Some c
                         | Raise _ => None
                         end;
           database := Some db; user := Some u; password := Some pw;
           host := Some h; port := Some p |}.
Proof.
  intros self d db u pw h p ct Hc.
  unfold_methods. rewrite Hc; cbn.
  destruct (psycopg2_connect db u pw h p d) as [d' [c|e]]; cbn;
    repeat split; try reflexivity.
  all: unfold with_port, with_host, with_password, with_user, with_database,
         with_connection; cbn; rewrite ?Hc; reflexivity.
Qed.

(** After an [open_connection] that returned, the connector holds the
    handle the connect returned, and a well-formed query gets past the
    decorator and the assertions: its first driver call enters the [with]
    block on that handle. *)
Theorem open_then_execute_uses_the_new_handle :
  forall (self : SQLConnector) (d : D) db u pw h p ct,
    o_result (open_connection db u pw h p ct self d) = Return tt ->
    exists c,
      In (EvConnect db u pw h p (Return c))
         (o_events (open_connection db u pw h p ct self d)) /\
      connection (o_self (open_connection db u pw h p ct self d)) = Some c /\
      forall query commit fetch rdf rrec rcur,
        valid_request fetch rdf rrec = true ->
        exists r rest,
          o_events (execute_query query commit fetch rdf rrec rcur
                      (o_self (open_connection db u pw h p ct self d))
                      (o_drv (open_connection db u pw h p ct self d)))
            = EvEnter c r :: rest.
Proof.
  intros self d db u pw h p ct Hret.
  assert (Hopen : exists c,
             In (EvConnect db u pw h p (Return c))
                (o_events (open_connection db u pw h p ct self d)) /\
             connection (o_self (open_connection db u pw h p ct self d)) = Some c).
  { revert Hret. unfold_methods.
    destruct (connection self) as [c0|] eqn:Hc; cbn; run; try discriminate.
    all: intros _; eexists; split; [cbn; eauto 10 | reflexivity]. }
  destruct Hopen as [c [Hin Hc]]. exists c. split; [exact Hin|]. split; [exact Hc|].
  intros query commit fetch rdf rrec rcur Hvalid.
  unfold valid_request in Hvalid. apply andb_true_iff in Hvalid as [Hf Hm].
  generalize dependent (o_self (open_connection db u pw h p ct self d)).
  generalize (o_drv (open_connection db u pw h p ct self d)).
  intros d1 s1 Hc. unfold_methods. rewrite Hc; cbn. rewrite Hf; cbn.
  rewrite Hm; cbn. rewrite Hc; cbn.
  destruct commit, rcur; run.
  all: eexists _, _; reflexivity.
Qed.

(** *** [execute_query] and the connector *)

(** [execute_query] only uses the connection: it leaves every attribute of
    the connector as it found it, and it never connects, never closes the
    connection and never triggers a collection. *)
Theorem execute_query_leaves_the_connector_alone :
  forall (self : SQLConnector) (d : D) query commit fetch rdf rrec rcur,
    o_self (execute_query query commit fetch rdf rrec rcur self d) = self /\
    Forall (fun ev => is_lifecycle ev = false)
      (o_events (execute_query query commit fetch rdf rrec rcur self d)).
Proof.
  intros self d query commit fetch rdf rrec rcur.
  unfold_methods.
  destruct (connection self) as [c0|] eqn:Hc; cbn; [|now split].
  destruct (fetch_in_one_all fetch); cbn; [|now split].
  destruct (negb rdf || negb rrec); cbn; [|now split].
  destruct commit, rcur; run.
  all: split; [reflexivity | repeat constructor].
Qed.

(** *** The [with] block *)

(** Closing a goal [l = pre ++ tail] on an explicit trace [l]: try the
    prefixes by length. *)
Ltac by_prefix fin :=
  first
    [ solve [eexists (@nil event); fin]
    | solve [eexists [_]; fin]
    | solve [eexists [_; _]; fin]
    | solve [eexists [_; _; _]; fin]
    | solve [eexists [_; _; _; _]; fin]
    | solve [eexists [_; _; _; _; _]; fin]
    | solve [eexists [_; _; _; _; _; _]; fin]
    | solve [eexists [_; _; _; _; _; _; _]; fin] ].

(** A well-formed query on a connector that holds [c] starts by entering
    the [with] block on [c].  If [__enter__] raises, that is all that
    happens.  Otherwise the trace ends with the one [__exit__] on [c], no
    other enter or exit lying between them, and the result is what
    [__exit__] makes of the block: its own exception if it raises, the
    block's value after a normal end, and after an exception of the block
    that exception again - or [None] if [__exit__] returned a true value. *)
Theorem with_block_brackets_the_call :
  forall (self : SQLConnector) (d : D) query commit fetch rdf rrec rcur c,
    connection self = Some c ->
    valid_request fetch rdf rrec = true ->
    (exists e,
       o_events (execute_query query commit fetch rdf rrec rcur self d)
         = [EvEnter c (Raise e)] /\
       o_result (execute_query query commit fetch rdf rrec rcur self d)
         = Raise e) \/
    (exists c' exc r mid,
       o_events (execute_query query commit fetch rdf rrec rcur self d)
         = EvEnter c (Return c') :: mid ++ [EvExit c exc r] /\
       Forall (fun ev => is_bracket ev = false) mid /\
       match r, exc with
       | Raise e', _ =>
           o_result (execute_query query commit fetch rdf rrec rcur self d)
             = Raise e'
       | Return _, None =>
           exists v,
             o_result (execute_query query commit fetch rdf rrec rcur self d)
               = Return v
       | Return true, Some _ =>
           o_result (execute_query query commit fetch rdf rrec rcur self d)
             = Return RetNone
       | Return false, Some e =>
           o_result (execute_query query commit fetch rdf rrec rcur self d)
             = Raise e
       end).
Proof.
  intros self d query commit fetch rdf rrec rcur c Hc Hvalid.
  unfold valid_request in Hvalid. apply andb_true_iff in Hvalid as [Hf Hm].
  unfold_methods. rewrite Hc; cbn. rewrite Hf; cbn. rewrite Hm; cbn.
  rewrite Hc; cbn.
  destruct commit, rcur; run.
  all: try (left; eexists; split; reflexivity).
  all: right; eexists _, _, _;
    by_prefix ltac:(split; [reflexivity
                           | split; [repeat constructor
                                    | cbn; try bool_step; cbn; eauto]]).
Qed.

(** A call creates at most one cursor and executes at most once; what it
    executes is the query it was given, unchanged, on the cursor it
    created. *)
Theorem one_cursor_one_execute :
  forall (self : SQLConnector) (d : D) query commit fetch rdf rrec rcur,
    length (filter is_cursor_creation
              (o_events (execute_query query commit fetch rdf rrec rcur self d)))
      <= 1 /\
    length (filter is_execute
              (o_events (execute_query query commit fetch rdf rrec rcur self d)))
      <= 1 /\
    forall cur q r,
      In (EvExecute cur q r)
         (o_events (execute_query query commit fetch rdf rrec rcur self d)) ->
      q = query /\
      exists c,
        In (EvCursor c (Return cur))
           (o_events (execute_query query commit fetch rdf rrec rcur self d)).
Proof.
  intros self d query commit fetch rdf rrec rcur.
  unfold_methods.
  destruct (connection self) as [c0|] eqn:Hc; cbn;
    [|repeat split; cbn; try lia; intros cur q r Hin; destruct Hin].
  destruct (fetch_in_one_all fetch); cbn;
    [|repeat split; cbn; try lia; intros cur q r Hin; destruct Hin].
  destruct (negb rdf || negb rrec); cbn;
    [|repeat split; cbn; try lia; intros cur q r Hin; destruct Hin].
  destruct commit, rcur; run.
  all: split; [cbn; lia|]; split; [cbn; lia|].
  all: intros cur q r' Hin; split_membership; try discriminate.
  all: match goal with
       | Heq : EvExecute _ _ _ = EvExecute _ _ _ |- _ =>
           injection Heq as <- <- <-
       end.
  all: split; [reflexivity | eexists; cbn; eauto 10].
Qed.

(** The two branches do not mix: with [commit=True] nothing is fetched and
    the description is not read (no rows come back, whatever the
    statement); with [commit=False] nothing is committed, rolled back or
    printed by the connector. *)
Theorem commit_and_read_branches_are_apart :
  forall (self : SQLConnector) (d : D) query (commit : bool) fetch rdf rrec rcur,
    Forall (fun ev =>
              (if commit then is_read_event ev else is_commit_event ev) = false)
      (o_events (execute_query query commit fetch rdf rrec rcur self d)).
Proof.
  intros self d query commit fetch rdf rrec rcur.
  unfold_methods.
  destruct (connection self) as [c0|] eqn:Hc; cbn; [|constructor].
  destruct (fetch_in_one_all fetch); cbn; [|constructor].
  destruct (negb rdf || negb rrec); cbn; [|constructor].
  destruct commit, rcur; run.
  all: repeat constructor.
Qed.

(** *** The read branch *)

(** A read with [fetch="all"] that returns (on a driver whose [__exit__]
    lets exceptions through) made one [fetchall] and no [fetchone]; what it
    hands back is built from all the rows delivered, in the order
    delivered, each turned into a list; with neither dataframe nor records
    asked for, that list of lists is the result itself. *)
Theorem fetch_all_yields_every_row_in_order :
  forall (self : SQLConnector) (d : D) query rdf rrec rcur v,
    exit_propagates ->
    o_result (execute_query query false "all" rdf rrec rcur self d)
      = Return v ->
    exists cur rs cols,
      In (EvFetchall cur (Return rs))
         (o_events (execute_query query false "all" rdf rrec rcur self d)) /\
      (forall cur' r',
         ~ In (EvFetchone cur' r')
              (o_events (execute_query query false "all" rdf rrec rcur self d))) /\
      In (EvDescription cur (Some cols))
         (o_events (execute_query query false "all" rdf rrec rcur self d)) /\
      (exists res,
         reshape rdf rrec (map PyList rs) (map col_name cols) = Return res /\
         v = hands_back false rcur res cur) /\
      (rdf = false -> rrec = false ->
       v = hands_back false rcur (Rows (map PyList rs)) cur).
Proof.
  intros self d query rdf rrec rcur v Hex.
  unfold_methods.
  destruct (connection self) as [c0|] eqn:Hc; cbn; [|discriminate].
  destruct (negb rdf || negb rrec); cbn; [|discriminate].
  destruct rcur; run.
  all: intros Hv; try discriminate Hv; try contract_absurd.
  all: injection Hv as <-.
  all: eexists _, _, _; split; [cbn; eauto 10|].
  all: split; [intros cur' r' Hin; cbn in Hin; split_membership; discriminate|].
  all: split; [cbn; eauto 10|].
  all: cbn; split; [eexists; split; [eassumption | reflexivity]|].
  all: intros -> ->; cbn in *.
  all: match goal with
       | Heq : Return _ = Return _ |- _ => injection Heq as <-
       end; reflexivity.
Qed.

(** A frame that pandas accepts holds the rows and the column names it was
    given. *)
Lemma pd_DataFrame_value :
  forall (data : list row_obj) (columns : list string) (df : DataFrame),
    pd_DataFrame data columns = Return df ->
    df = {| df_data := data; df_columns := columns |}.
Proof.
  intros data columns df. unfold pd_DataFrame.
  destruct data as [|row data]; [intros Heq; now injection Heq as <-|].
  destruct (Nat.eqb _ _); [intros Heq; now injection Heq as <- | discriminate].
Qed.

Lemma reshape_frame_value :
  forall (rows : list row_obj) (columns : list string) (res : results),
    reshape true false rows columns = Return res ->
    res = Frame {| df_data := rows; df_columns := columns |}.
Proof.
  intros rows columns res. unfold reshape.
  destruct (pd_DataFrame rows columns) as [df|e] eqn:E; [|discriminate].
  apply pd_DataFrame_value in E. subst df.
  intros Heq; now injection Heq as <-.
Qed.

(** A read with [return_dataframe=True] that returns (on a driver whose
    [__exit__] lets exceptions through) hands back the frame built from
    the fetched rows and the column names of the description, whatever
    was passed for [return_records]: the comprehension of line 133 never
    runs over a frame. *)
Theorem dataframe_mode_yields_the_frame :
  forall (self : SQLConnector) (d : D) query fetch rrec rcur v,
    exit_propagates ->
    o_result (execute_query query false fetch true rrec rcur self d)
      = Return v ->
    rrec = false /\
    exists cur rows cols,
      fetched fetch cur rows
        (o_events (execute_query query false fetch true rrec rcur self d)) /\
      In (EvDescription cur (Some cols))
         (o_events (execute_query query false fetch true rrec rcur self d)) /\
      v = hands_back false rcur
            (Frame {| df_data := rows; df_columns := map col_name cols |}) cur.
Proof.
  intros self d query fetch rrec rcur v Hex.
  unfold fetched. unfold_methods.
  destruct (connection self) as [c0|] eqn:Hc; cbn; [|discriminate].
  destruct (fetch_in_one_all fetch); cbn; [|discriminate].
  destruct rrec; cbn; [discriminate|].
  destruct rcur; run.
  all: intros Hv; try discriminate Hv; try contract_absurd.
  all: injection Hv as <-.
  all: match goal with
       | Heq : reshape true false _ _ = Return _ |- _ =>
           apply reshape_frame_value in Heq; subst
       end.
  all: split; [reflexivity|].
  all: eexists _, _, _; split; [eexists; split; [cbn; eauto 10 | reflexivity]|].
  all: split; [cbn; eauto 10 | reflexivity].
Qed.

(** *** Failures *)

(** Closing a goal [exists ev, In ev l /\ P ev] on an explicit trace [l]:
    try the events in turn. *)
Ltac nth_event n :=
  lazymatch n with
  | O => left; reflexivity
  | S ?m => right; nth_event m
  end.

Ltac pick_event_at n := solve [eexists; split; [cbn; nth_event n | reflexivity]].

Ltac pick_event :=
  first [ pick_event_at 0 | pick_event_at 1 | pick_event_at 2
        | pick_event_at 3 | pick_event_at 4 | pick_event_at 5
        | pick_event_at 6 | pick_event_at 7 | pick_event_at 8 ].

(** Nothing inside the [with] block is retried or cleaned up after: when a
    driver call of the block raises - the cursor creation, the execute, a
    fetch, the rollback, the cursor close, or a commit whose exception
    [except Exception] does not catch - the very next event is the
    [__exit__] of the block, given that exception, and it is the last; if
    [__exit__] returns a false value the caller gets the exception. *)
Theorem failing_call_ends_the_block :
  forall (self : SQLConnector) (d : D) query commit fetch rdf rrec rcur ev e,
    In ev (o_events (execute_query query commit fetch rdf rrec rcur self d)) ->
    raised_in_block ev = Some e ->
    (forall c, ev = EvCommit c (Raise e) -> is_Exception e = false) ->
    exists c r pre,
      connection self = Some c /\
      o_events (execute_query query commit fetch rdf rrec rcur self d)
        = pre ++ [ev; EvExit c (Some e) r] /\
      (r = Return false ->
       o_result (execute_query query commit fetch rdf rrec rcur self d)
         = Raise e).
Proof.
  intros self d query commit fetch rdf rrec rcur ev e.
  unfold_methods.
  destruct (connection self) as [c0|] eqn:Hc; cbn; [|intros []].
  destruct (fetch_in_one_all fetch); cbn; [|intros []].
  destruct (negb rdf || negb rrec); cbn; [|intros []].
  destruct commit, rcur; run.
  all: intros Hin Hraised Hcommit; split_membership; subst ev;
    try discriminate Hraised; injection Hraised as <-.
  all: try (specialize (Hcommit _ eq_refl); congruence).
  all: eexists _, _;
    by_prefix ltac:(split; [reflexivity
                           | split; [reflexivity | intros Hr; try discriminate Hr;
                                                   reflexivity]]).
Qed.

(** What makes [reshape] fail: pandas refusing the frame. *)
Lemma reshape_error :
  forall rdf rrec (rows : list row_obj) (columns : list string) (e : exn),
    reshape rdf rrec rows columns = Raise e ->
    rdf = true /\ pd_DataFrame rows columns = Raise e.
Proof.
  intros rdf rrec rows columns e. unfold reshape.
  destruct rdf; [|discriminate].
  destruct (pd_DataFrame rows columns) as [df|e']; [discriminate|].
  intros Heq; injection Heq as <-. now split.
Qed.

(** [execute_query] makes up no error of its own beyond its checks: an
    exception that leaves it is the assertion failure of the decorator or
    of the two argument checks (and then nothing was called), or the
    [TypeError] of a missing description, or the refusal by pandas of the
    frame asked for with [return_dataframe] (built from the rows fetched
    and the column names read in this call), or an exception that a driver
    call recorded in the trace of this very call raised. *)
Theorem execute_query_errors_come_from_the_driver :
  forall (self : SQLConnector) (d : D) query commit fetch rdf rrec rcur e,
    o_result (execute_query query commit fetch rdf rrec rcur self d) = Raise e ->
    (o_events (execute_query query commit fetch rdf rrec rcur self d) = [] /\
     (e = PreconditionError \/ e = ValidationError_fetch \/
      e = ValidationError_modes)) \/
    (e = NoDescriptionError /\
     exists cur,
       In (EvDescription cur None)
          (o_events (execute_query query commit fetch rdf rrec rcur self d))) \/
    (rdf = true /\
     exists cur rows cols,
       fetched fetch cur rows
         (o_events (execute_query query commit fetch rdf rrec rcur self d)) /\
       In (EvDescription cur (Some cols))
          (o_events (execute_query query commit fetch rdf rrec rcur self d)) /\
       pd_DataFrame rows (map col_name cols) = Raise e) \/
    (exists ev,
       In ev (o_events (execute_query query commit fetch rdf rrec rcur self d)) /\
       raised_by ev = Some e).
Proof.
  intros self d query commit fetch rdf rrec rcur e.
  unfold fetched. unfold_methods.
  destruct (connection self) as [c0|] eqn:Hc; cbn;
    [|intros Hr; injection Hr as <-; left; split; [reflexivity | now left]].
  destruct (fetch_in_one_all fetch); cbn;
    [|intros Hr; injection Hr as <-; left; split;
      [reflexivity | right; now left]].
  destruct (negb rdf || negb rrec); cbn;
    [|intros Hr; injection Hr as <-; left; split;
      [reflexivity | right; now right]].
  destruct commit, rcur; run.
  all: intros Hr; try discriminate Hr; injection Hr as <-.
  all: right.
  all: try (left; split; [reflexivity | eexists; cbn; eauto 10]; fail).
  all: right.
  all: try (right; pick_event).
  all: left.
  all: match goal with
       | Heq : reshape _ _ _ _ = Raise _ |- _ =>
           let Hpd := fresh "Hpd" in
           apply reshape_error in Heq as [-> Hpd]
       end.
  all: split; [reflexivity|].
  all: eexists _, _, _; split; [eexists; split; [cbn; eauto 10 | reflexivity]|].
  all: split; [cbn; eauto 10 | eassumption].
Qed.

(** *** Records *)

Lemma dict_setitem_keys :
  forall k v (d : dict) k',
    In k' (map fst (dict_setitem k v d)) <-> k' = k \/ In k' (map fst d).
Proof.
  intros k v d k'; induction d as [|[k1 v1] d IH]; cbn.
  - intuition congruence.
  - destruct (String.eqb_spec k1 k) as [->|Hne]; cbn.
    + intuition congruence.
    + rewrite IH. intuition congruence.
Qed.

Lemma dict_setitem_NoDup :
  forall k v (d : dict),
    NoDup (map fst d) -> NoDup (map fst (dict_setitem k v d)).
Proof.
  intros k v d; induction d as [|[k1 v1] d IH]; cbn; intros Hnd.
  - constructor; [intros [] | constructor].
  - inversion Hnd as [|? ? Hk1 Hnd']; subst.
    destruct (String.eqb_spec k1 k) as [->|Hne]; cbn.
    + constructor; assumption.
    + constructor; [|now apply IH].
      rewrite dict_setitem_keys. intros [->|Hin]; [now apply Hne | contradiction].
Qed.

Lemma dict_setitem_length :
  forall k v (d : dict), length (dict_setitem k v d) <= S (length d).
Proof.
  intros k v d; induction d as [|[k1 v1] d IH]; cbn.
  - lia.
  - destruct (String.eqb k1 k); cbn; lia.
Qed.

Lemma fold_setitem_invariant :
  forall (pairs : list (value * string)) (acc : dict),
    NoDup (map fst acc) ->
    let d := fold_left (fun d vc => dict_setitem (snd vc) (fst vc) d) pairs acc in
    NoDup (map fst d) /\
    (forall k, In k (map fst d) -> In k (map fst acc) \/ In k (map snd pairs)) /\
    length d <= length acc + length pairs.
Proof.
  induction pairs as [|[v c] pairs IH]; intros acc Hnd; cbn.
  - repeat split; [assumption | now left | lia].
  - destruct (IH (dict_setitem c v acc) (dict_setitem_NoDup c v acc Hnd))
      as [Hnd' [Hkeys Hlen]].
    split; [exact Hnd'|]. split.
    + intros k Hk. destruct (Hkeys k Hk) as [Hin|Hin]; [|now right; right].
      apply dict_setitem_keys in Hin as [->|Hin]; [right; now left | now left].
    + pose proof (dict_setitem_length c v acc). lia.
Qed.

(** A record never repeats a key, even when column names repeat; its keys
    are column names; and it has at most as many entries as the shorter of
    the row and the column list ([zip] stops at the shorter). *)
Theorem record_keys_are_distinct_columns :
  forall (columns : list string) (row : row_obj),
    NoDup (map fst (record_of columns row)) /\
    (forall k, In k (map fst (record_of columns row)) -> In k columns) /\
    length (record_of columns row)
      <= Nat.min (length (items_of row)) (length columns).
Proof.
  intros columns row. unfold record_of.
  destruct (fold_setitem_invariant (combine (items_of row) columns) []
              (NoDup_nil _)) as [Hnd [Hkeys Hlen]].
  split; [exact Hnd|]. split.
  - intros k Hk. destruct (Hkeys k Hk) as [[]|Hin].
    apply in_map_iff in Hin as [[v c] [<- Hin]].
    now apply in_combine_r in Hin.
  - cbn in Hlen. now rewrite length_combine in Hlen.
Qed.

End Further.

(** ** The further properties at work on concrete calls *)

Lemma close_failure_keeps_the_connection_witness :
  close_connection connected flaky_close_fails
    = {| o_self := connected; o_drv := flaky_close_fails;
         o_events :=
           [EvConnClose (Conn 0)
              (Raise (DriverError "InterfaceError" "connection already closed"))];
         o_result :=
           Raise (DriverError "InterfaceError" "connection already closed") |}.
Proof.
  exact (close_failure_keeps_the_connection connected flaky_close_fails (Conn 0)
           (DriverError "InterfaceError" "connection already closed")
           eq_refl eq_refl).
Defined.

Lemma closed_connector_refuses_calls_witness :
  close_connection (o_self (close_connection connected fake_ok))
                   (o_drv (close_connection connected fake_ok))
    = untouched (o_self (close_connection connected fake_ok))
                (o_drv (close_connection connected fake_ok))
                (Raise PreconditionError).
Proof.
  exact (proj1 (closed_connector_refuses_calls connected fake_ok eq_refl)).
Defined.

Lemma open_on_idle_connector_witness :
  o_events (open_connection (Some "shop") (Some "ana") (Some "pw")
              (Some "db.local") (Some "5432") "postgres" __init__ fake_ok)
    = [EvConnect (Some "shop") (Some "ana") (Some "pw") (Some "db.local")
         (Some "5432") (Return (Conn 0))].
Proof.
  exact (proj1 (open_on_idle_connector __init__ fake_ok (Some "shop")
                  (Some "ana") (Some "pw") (Some "db.local") (Some "5432")
                  "postgres" eq_refl)).
Defined.

Lemma open_then_execute_uses_the_new_handle_witness :
  exists c,
    In (EvConnect (Some "shop") (Some "ana") (Some "pw") (Some "db.local")
          (Some "5432") (Return c))
       (o_events (open_connection (Some "shop") (Some "ana") (Some "pw")
                    (Some "db.local") (Some "5432") "postgres" __init__ fake_ok)) /\
    connection (o_self (open_connection (Some "shop") (Some "ana") (Some "pw")
                          (Some "db.local") (Some "5432") "postgres" __init__
                          fake_ok)) = Some c /\
    forall query commit fetch rdf rrec rcur,
      valid_request fetch rdf rrec = true ->
      exists r rest,
        o_events (execute_query query commit fetch rdf rrec rcur
                    (o_self (open_connection (Some "shop") (Some "ana")
                               (Some "pw") (Some "db.local") (Some "5432")
                               "postgres" __init__ fake_ok))
                    (o_drv (open_connection (Some "shop") (Some "ana")
                              (Some "pw") (Some "db.local") (Some "5432")
                              "postgres" __init__ fake_ok)))
          = EvEnter c r :: rest.
Proof.
  exact (open_then_execute_uses_the_new_handle __init__ fake_ok (Some "shop")
           (Some "ana") (Some "pw") (Some "db.local") (Some "5432") "postgres"
           eq_refl).
Defined.

Lemma with_block_brackets_the_call_witness :
  (exists e,
     o_events (execute_query "SELECT id, name FROM t" false "all" false false
                 false connected fake_table)
       = [EvEnter (Conn 0) (Raise e)] /\
     o_result (execute_query "SELECT id, name FROM t" false "all" false false
                 false connected fake_table)
       = Raise e) \/
  (exists c' exc r mid,
     o_events (execute_query "SELECT id, name FROM t" false "all" false false
                 false connected fake_table)
       = EvEnter (Conn 0) (Return c') :: mid ++ [EvExit (Conn 0) exc r] /\
     Forall (fun ev => is_bracket ev = false) mid /\
     match r, exc with
     | Raise e', _ =>
         o_result (execute_query "SELECT id, name FROM t" false "all" false
                     false false connected fake_table)
           = Raise e'
     | Return _, None =>
         exists v,
           o_result (execute_query "SELECT id, name FROM t" false "all" false
                       false false connected fake_table)
             = Return v
     | Return true, Some _ =>
         o_result (execute_query "SELECT id, name FROM t" false "all" false
                     false false connected fake_table)
           = Return RetNone
     | Return false, Some e =>
         o_result (execute_query "SELECT id, name FROM t" false "all" false
                     false false connected fake_table)
           = Raise e
     end).
Proof.
  exact (with_block_brackets_the_call connected fake_table
           "SELECT id, name FROM t" false "all" false false false (Conn 0)
           eq_refl eq_refl).
Defined.

Lemma one_cursor_one_execute_witness :
  "SELEC 1" = "SELEC 1" /\
  exists c,
    In (EvCursor c (Return (Cursor 1)))
       (o_events (execute_query "SELEC 1" false "all" false false false
                    connected fake_execute_fails)).
Proof.
  exact (proj2 (proj2 (one_cursor_one_execute connected fake_execute_fails
                         "SELEC 1" false "all" false false false))
           (Cursor 1) "SELEC 1"
           (Raise (DriverError "SyntaxError" "syntax error at or near SELEC"))
           (or_intror (or_intror (or_introl eq_refl)))).
Defined.

Lemma fetch_all_yields_every_row_in_order_witness :
  exists cur rs cols,
    In (EvFetchall cur (Return rs))
       (o_events (execute_query "SELECT id, name FROM t" false "all" false false
                    false connected fake_table)) /\
    (forall cur' r',
       ~ In (EvFetchone cur' r')
            (o_events (execute_query "SELECT id, name FROM t" false "all" false
                         false false connected fake_table))) /\
    In (EvDescription cur (Some cols))
       (o_events (execute_query "SELECT id, name FROM t" false "all" false false
                    false connected fake_table)) /\
    (exists res,
       reshape false false (map PyList rs) (map col_name cols) = Return res /\
       RetResults (Rows [PyList [VInt 1; VStr "a"]; PyList [VInt 2; VStr "b"]])
         = hands_back false false res cur) /\
    (false = false -> false = false ->
     RetResults (Rows [PyList [VInt 1; VStr "a"]; PyList [VInt 2; VStr "b"]])
       = hands_back false false (Rows (map PyList rs)) cur).
Proof.
  exact (fetch_all_yields_every_row_in_order connected fake_table
           "SELECT id, name FROM t" false false false
           (RetResults (Rows [PyList [VInt 1; VStr "a"];
                              PyList [VInt 2; VStr "b"]]))
           fake_exit_propagates eq_refl).
Defined.

Lemma dataframe_mode_yields_the_frame_witness :
  false = false /\
  exists cur rows cols,
    fetched "one" cur rows
      (o_events (execute_query "SELECT id, name FROM t" false "one" true false
                   true connected fake_table)) /\
    In (EvDescription cur (Some cols))
       (o_events (execute_query "SELECT id, name FROM t" false "one" true false
                    true connected fake_table)) /\
    RetResultsCursor
      (Frame {| df_data := [PyTuple [VInt 1; VStr "a"]];
                df_columns := ["id"; "name"] |}) (Cursor 1)
      = hands_back false true
          (Frame {| df_data := rows; df_columns := map col_name cols |}) cur.
Proof.
  exact (dataframe_mode_yields_the_frame connected fake_table
           "SELECT id, name FROM t" "one" false true
           (RetResultsCursor
              (Frame {| df_data := [PyTuple [VInt 1; VStr "a"]];
                        df_columns := ["id"; "name"] |}) (Cursor 1))
           fake_exit_propagates eq_refl).
Defined.

Lemma failing_call_ends_the_block_witness :
  exists c r pre,
    connection connected = Some c /\
    o_events (execute_query "UPDATE t SET n = 1" true "all" false false false
                connected flaky_rollback_fails)
      = pre ++ [EvRollback (Conn 0)
                  (Raise (DriverError "InterfaceError" "rollback failed"));
                EvExit c
                  (Some (DriverError "InterfaceError" "rollback failed")) r] /\
    (r = Return false ->
     o_result (execute_query "UPDATE t SET n = 1" true "all" false false false
                 connected flaky_rollback_fails)
       = Raise (DriverError "InterfaceError" "rollback failed")).
Proof.
  refine (failing_call_ends_the_block connected flaky_rollback_fails
            "UPDATE t SET n = 1" true "all" false false false
            (EvRollback (Conn 0)
               (Raise (DriverError "InterfaceError" "rollback failed")))
            (DriverError "InterfaceError" "rollback failed")
            (or_intror (or_intror (or_intror (or_intror (or_introl eq_refl)))))
            eq_refl _).
  intros c Heq; discriminate Heq.
Defined.

Lemma execute_query_errors_come_from_the_driver_witness :
  (o_events (execute_query "SELECT id, name FROM t" false "all" true false false
               connected fake_ragged) = [] /\
   (ValueError "1 columns passed, passed data had 2 columns" = PreconditionError \/
    ValueError "1 columns passed, passed data had 2 columns" = ValidationError_fetch \/
    ValueError "1 columns passed, passed data had 2 columns" = ValidationError_modes)) \/
  (ValueError "1 columns passed, passed data had 2 columns" = NoDescriptionError /\
   exists cur,
     In (EvDescription cur None)
        (o_events (execute_query "SELECT id, name FROM t" false "all" true false
                     false connected fake_ragged))) \/
  (true = true /\
   exists cur rows cols,
     fetched "all" cur rows
       (o_events (execute_query "SELECT id, name FROM t" false "all" true false
                    false connected fake_ragged)) /\
     In (EvDescription cur (Some cols))
        (o_events (execute_query "SELECT id, name FROM t" false "all" true false
                     false connected fake_ragged)) /\
     pd_DataFrame rows (map col_name cols)
       = Raise (ValueError "1 columns passed, passed data had 2 columns")) \/
  (exists ev,
     In ev (o_events (execute_query "SELECT id, name FROM t" false "all" true
                        false false connected fake_ragged)) /\
     raised_by ev = Some (ValueError "1 columns passed, passed data had 2 columns")).
Proof.
  exact (execute_query_errors_come_from_the_driver connected fake_ragged
           "SELECT id, name FROM t" false "all" true false false
           (ValueError "1 columns passed, passed data had 2 columns") eq_refl).
Defined.

Lemma record_keys_are_distinct_columns_witness :
  In "id" ["id"; "name"; "id"].
Proof.
  exact (proj1 (proj2 (record_keys_are_distinct_columns ["id"; "name"; "id"]
                         (PyList [VInt 1; VStr "a"; VInt 2])))
           "id" (or_introl eq_refl)).
Defined.
